(** * break_reminder.py: a shallow embedding and its verified properties

    The daemon reads an INI configuration, then loops forever: inside the
    work-hours window it shows a desktop notification and sleeps for the
    configured interval, outside it sleeps until the next window start.

    Modelling conventions.
    - [datetime.time] is a record of its four fields, compared as Python
      compares naive times: lexicographically on
      (hour, minute, second, microsecond).
    - [datetime.date] is its proleptic Gregorian ordinal (a day number, as
      [date.toordinal()] gives it); adding [timedelta(days=1)] adds one.
      The finite range of the calendar library (years 1 to 9999) is not
      modelled.
    - [datetime.timedelta] is its exact number of microseconds;
      [total_seconds()] is that number over 10^6 as a rational (the binary
      rounding of the float is not modelled).
    - The wall clock is a sequence of readings: every call of
      [datetime.datetime.now()] consumes the next one.  Nothing is assumed
      about the sequence, so the loop theorems hold whatever time the
      sleeps and the computation really take.
    - The file system maps a path to what [configparser] makes of the file
      there: the sections and options it has read, as [get] returns them
      (value interpolation is not modelled).  [int()] and [strptime()] are
      modelled on ASCII input.
    - Notifications, sleeps and printed lines are recorded in an output
      trace, in program order; the notification daemon is taken to accept
      every call. *)

From Stdlib Require Import ZArith QArith Lia List String Ascii Bool.
From stdpp Require Import base option gmap strings.
Import ListNotations.

Local Open Scope Z_scope.

(** ** Times of day, dates and date-times *)

Record time := mk_time {
  hour : Z;
  minute : Z;
  second : Z;
  microsecond : Z
}.

(** The range check of the [datetime.time] constructor. *)
Definition valid_time (t : time) : Prop :=
  0 <= hour t < 24 /\ 0 <= minute t < 60 /\
  0 <= second t < 60 /\ 0 <= microsecond t < 1000000.

(** Lexicographic comparison of two tuples, left to right. *)
Fixpoint tuple_cmp (a b : list Z) : comparison :=
  match a, b with
  | [], [] => Eq
  | [], _ :: _ => Lt
  | _ :: _, [] => Gt
  | x :: a', y :: b' =>
      match x ?= y with
      | Eq => tuple_cmp a' b'
      | c => c
      end
  end.

Definition time_tuple (t : time) : list Z :=
  [hour t; minute t; second t; microsecond t].

(** The comparison behind [time.__le__] on naive times. *)
Definition time_cmp (a b : time) : comparison :=
  tuple_cmp (time_tuple a) (time_tuple b).

Definition time_le (a b : time) : bool :=
  match time_cmp a b with Gt => false | _ => true end.

(** Microseconds elapsed since midnight: the chronological position of a
    time of day. *)
Definition time_micros (t : time) : Z :=
  ((hour t * 60 + minute t) * 60 + second t) * 1000000 + microsecond t.

Record datetime := mk_datetime {
  dt_date : Z;        (* now.date(), as a day ordinal *)
  dt_time : time      (* now.time() *)
}.

(** [datetime.datetime.combine(d, t)]. *)
Definition combine (d : Z) (t : time) : datetime := mk_datetime d t.

Definition datetime_tuple (d : datetime) : list Z :=
  dt_date d :: time_tuple (dt_time d).

Definition datetime_cmp (a b : datetime) : comparison :=
  tuple_cmp (datetime_tuple a) (datetime_tuple b).

(** [a >= b] on naive date-times. *)
Definition datetime_ge (a b : datetime) : bool :=
  match datetime_cmp a b with Lt => false | _ => true end.

Definition micros_per_day : Z := 86400 * 1000000.

(** Microseconds elapsed since the start of day 0. *)
Definition datetime_micros (d : datetime) : Z :=
  dt_date d * micros_per_day + time_micros (dt_time d).

(** A [timedelta], as its exact number of microseconds. *)
Definition timedelta := Z.

(** [a - b] on date-times. *)
Definition datetime_sub (a b : datetime) : timedelta :=
  ((dt_date a - dt_date b) * 86400
   + (((hour (dt_time a) * 60 + minute (dt_time a)) * 60 + second (dt_time a))
      - ((hour (dt_time b) * 60 + minute (dt_time b)) * 60 + second (dt_time b))))
  * 1000000
  + (microsecond (dt_time a) - microsecond (dt_time b)).

(** [timedelta.total_seconds()]. *)
Definition total_seconds (d : timedelta) : Q := d # 1000000.

(** ** The world the program runs in *)

(** What is recorded of a run: the calls of the notification daemon, the
    suspensions and the printed lines. *)
Inductive log_line :=
| UsingConfigFile (path : string)
| WorkHours (work_start work_end : time) (interval : Z)
| DelayingFirst (interval : Z)
| NotificationSent (at_time : time)
| OutsideWorkHours (sleep_duration : Q) (start : time).

Inductive Event :=
| Show (title message : string) (timeout_ms : Z)   (* notify2: n.show() *)
| Sleep (seconds : Q)                               (* await asyncio.sleep *)
| Print (l : log_line).

(** An INI document after [config.read]: the [DEFAULT] section and the
    named sections, option names already lower-cased by the parser, values
    stripped. *)
Record ConfigParser := mk_parser {
  cp_defaults : gmap string string;
  cp_sections : gmap string (gmap string string)
}.

(** What a path holds, seen through [configparser.read]. *)
Inductive file :=
| Unreadable                    (* a directory, or no permission: skipped *)
| Malformed                     (* not INI syntax: the parser raises *)
| Ini (doc : ConfigParser).

Record World := mk_world {
  xdg_config_home : option string;   (* os.environ.get("XDG_CONFIG_HOME") *)
  home_config : string;              (* os.path.expanduser("~/.config") *)
  files : gmap string file;
  clock : nat -> datetime;           (* the readings of datetime.now() *)
  reads : nat;                       (* how many have been consumed *)
  output : list Event                (* oldest first *)
}.

Inductive Exn :=
| ValueError            (* int() or strptime() rejects its argument *)
| ParsingError.         (* configparser rejects the file *)

Inductive Result (A : Type) :=
| Ok (a : A)
| Raise (e : Exn).
Arguments Ok {A} a.
Arguments Raise {A} e.

(** State and exceptions. *)
Definition M (A : Type) : Type := World -> Result (A * World).

#[export] Instance M_ret : MRet M := fun A a w => Ok (a, w).

#[export] Instance M_bind : MBind M := fun A B k m w =>
  match m w with
  | Ok (a, w') => k a w'
  | Raise e => Raise e
  end.

Definition raise {A} (e : Exn) : M A := fun _ => Raise e.

(** [datetime.datetime.now()]. *)
Definition datetime_now : M datetime :=
  fun w => Ok (clock w (reads w),
               mk_world (xdg_config_home w) (home_config w) (files w)
                        (clock w) (S (reads w)) (output w)).

Definition emit (e : Event) : M unit :=
  fun w => Ok (tt,
               mk_world (xdg_config_home w) (home_config w) (files w)
                        (clock w) (reads w) (output w ++ [e])).

Definition print (l : log_line) : M unit := emit (Print l).

(** [await asyncio.sleep(delay)]. *)
Definition asyncio_sleep (delay : Q) : M unit := emit (Sleep delay).

(** ** The functions of the program, in the order of the source *)

Definition NOTIFICATION_TITLE : string := "Break Reminder".
Definition NOTIFICATION_MESSAGE : string :=
  "It's time to take a break and stretch!".

Definition DEFAULT_INTERVAL : Z := 3600.
Definition DEFAULT_START : string := "09:00".
Definition DEFAULT_END : string := "17:00".

Definition SYSTEM_CONFIG_PATH : string := "/etc/xdg/break-reminder.conf".

(** *** Library functions the program calls *)

(** [os.path.join(a, b)] of [posixpath]. *)
Definition starts_with_slash (s : string) : bool :=
  match s with
  | String c _ => Ascii.eqb c "/"
  | EmptyString => false
  end.

Fixpoint ends_with_slash (s : string) : bool :=
  match s with
  | EmptyString => false
  | String c EmptyString => Ascii.eqb c "/"
  | String _ s' => ends_with_slash s'
  end.

Definition os_path_join (a b : string) : string :=
  if starts_with_slash b then b
  else if (String.eqb a "" || ends_with_slash a)%bool then a +:+ b
  else a +:+ "/" +:+ b.

(** [os.path.exists(path)]. *)
Definition os_path_exists (path : string) : M bool :=
  fun w => Ok (bool_decide (is_Some (files w !! path)), w).

Definition is_digit (c : ascii) : bool :=
  ((48 <=? N_of_ascii c) && (N_of_ascii c <=? 57))%N.

Definition in_range (lo hi c : ascii) : bool :=
  ((N_of_ascii lo <=? N_of_ascii c) && (N_of_ascii c <=? N_of_ascii hi))%N.

Definition digit_value (c : ascii) : Z := Z.of_N (N_of_ascii c) - 48.

(** The white space [str.strip()] and [int()] remove (ASCII). *)
Definition is_space (c : ascii) : bool :=
  let n := N_of_ascii c in
  (((9 <=? n) && (n <=? 13)) || ((28 <=? n) && (n <=? 32)))%N.

Fixpoint lstrip (cs : list ascii) : list ascii :=
  match cs with
  | c :: r => if is_space c then lstrip r else cs
  | [] => []
  end.

Definition strip (cs : list ascii) : list ascii :=
  rev (lstrip (rev (lstrip cs))).

(** The digits of a decimal literal after its first digit: more digits,
    each optionally preceded by one underscore. *)
Fixpoint int_digits (acc : Z) (cs : list ascii) : option Z :=
  match cs with
  | [] => Some acc
  | c :: r =>
      if is_digit c then int_digits (10 * acc + digit_value c) r
      else if Ascii.eqb c "_" then
        match r with
        | d :: r' =>
            if is_digit d then int_digits (10 * acc + digit_value d) r'
            else None
        | [] => None
        end
      else None
  end.

Definition int_literal (cs : list ascii) : option Z :=
  match cs with
  | c :: r => if is_digit c then int_digits (digit_value c) r else None
  | [] => None
  end.

(** [int(s)] in base ten, for an ASCII [s]; [None] where Python raises
    [ValueError]. *)
Definition py_int (s : string) : option Z :=
  match strip (list_ascii_of_string s) with
  | c :: r =>
      if Ascii.eqb c "+" then int_literal r
      else if Ascii.eqb c "-" then Z.opp <$> int_literal r
      else int_literal (c :: r)
  | [] => None
  end.

(** The regular expression [_strptime] builds for the format "%H:%M" is
    [(?P<H>2[0-3]|[0-1]\d|\d):(?P<M>[0-5]\d|\d)].  Each piece lists its
    matches in the order the alternation tries them, with the rest of the
    input; sequencing in the list monad is the engine's backtracking. *)
Definition re_H (cs : list ascii) : list (Z * list ascii) :=
  match cs with
  | c1 :: c2 :: r =>
      if (Ascii.eqb c1 "2" && in_range "0" "3" c2)%bool
      then [(20 + digit_value c2, r)] else []
  | _ => []
  end ++
  match cs with
  | c1 :: c2 :: r =>
      if (in_range "0" "1" c1 && is_digit c2)%bool
      then [(10 * digit_value c1 + digit_value c2, r)] else []
  | _ => []
  end ++
  match cs with
  | c1 :: r => if is_digit c1 then [(digit_value c1, r)] else []
  | [] => []
  end.

Definition re_colon (cs : list ascii) : list (list ascii) :=
  match cs with
  | c :: r => if Ascii.eqb c ":" then [r] else []
  | [] => []
  end.

Definition re_M (cs : list ascii) : list (Z * list ascii) :=
  match cs with
  | c1 :: c2 :: r =>
      if (in_range "0" "5" c1 && is_digit c2)%bool
      then [(10 * digit_value c1 + digit_value c2, r)] else []
  | _ => []
  end ++
  match cs with
  | c1 :: r => if is_digit c1 then [(digit_value c1, r)] else []
  | [] => []
  end.

(** [format_regex.match(data_string)]: the first match, if any. *)
Definition format_regex_match (cs : list ascii) : option (Z * Z * list ascii) :=
  head ('(h, r1) ← re_H cs; r2 ← re_colon r1; '(m, r3) ← re_M r2;
        [(h, m, r3)]).

(** [datetime.datetime.strptime(s, "%H:%M").time()], for an ASCII [s];
    [None] where Python raises [ValueError], either because the
    expression does not match or because unconverted data remains after
    the match. *)
Definition strptime_HM (s : string) : option time :=
  match format_regex_match (list_ascii_of_string s) with
  | Some (h, m, []) => Some (mk_time h m 0 0)
  | _ => None
  end.

(** [config.read(path)]: a file that cannot be opened is skipped. *)
Definition empty_parser : ConfigParser := mk_parser ∅ ∅.

Definition config_read (path : string) : M ConfigParser :=
  fun w => match files w !! path with
           | Some (Ini doc) => Ok (doc, w)
           | Some Malformed => Raise ParsingError
           | Some Unreadable | None => Ok (empty_parser, w)
           end.

(** The value [config.get(section, option)] finds: the section must exist,
    and its own options shadow those of [DEFAULT].  [None] stands for
    [NoSectionError] and [NoOptionError].  The value is taken as written:
    this is what [get] returns for a value without [%]. *)
Definition cp_lookup (config : ConfigParser) (section key : string)
  : option string :=
  d ← cp_sections config !! section;
  match d !! key with
  | Some v => Some v
  | None => cp_defaults config !! key
  end.

(** [config.get(section, option, fallback=fallback)]. *)
Definition cp_get (config : ConfigParser) (section key fallback : string)
  : M string :=
  mret (default fallback (cp_lookup config section key)).

(** [config.getint(section, option, fallback=fallback)]. *)
Definition cp_getint (config : ConfigParser) (section key : string)
  (fallback : Z) : M Z :=
  match cp_lookup config section key with
  | None => mret fallback
  | Some v => match py_int v with
              | Some n => mret n
              | None => raise ValueError
              end
  end.

(** *** The program *)

(** The module-level constant [USER_CONFIG_PATH]. *)
Definition USER_CONFIG_PATH (w : World) : string :=
  os_path_join (default (home_config w) (xdg_config_home w))
               "break-reminder.conf".

Definition get_config_path : M string :=
  fun w => (user_exists ← os_path_exists (USER_CONFIG_PATH w);
            mret (if user_exists : bool then USER_CONFIG_PATH w
                  else SYSTEM_CONFIG_PATH)) w.

(** The dictionary [load_config] returns. *)
Record Config := mk_config {
  cfg_interval : Z;
  cfg_start : string;
  cfg_end : string
}.

Definition load_config (config_path : string) : M Config :=
  path_exists ← os_path_exists config_path;
  if path_exists : bool then
    config ← config_read config_path;
    interval ← cp_getint config "schedule" "interval" DEFAULT_INTERVAL;
    start_time ← cp_get config "workhours" "start" DEFAULT_START;
    end_time ← cp_get config "workhours" "end" DEFAULT_END;
    mret (mk_config interval start_time end_time)
  else
    mret (mk_config DEFAULT_INTERVAL DEFAULT_START DEFAULT_END).

Definition parse_time (time_str : string) : M time :=
  match strptime_HM time_str with
  | Some t => mret t
  | None => raise ValueError
  end.

(** The body of [time_until], with the reading of the clock it takes
    made an argument. *)
Definition seconds_from (now target : datetime) : Q :=
  let delta := datetime_sub target now in
  if Qle_bool 0 (total_seconds delta) then total_seconds delta else 0%Q.

Definition time_until (target : datetime) : M Q :=
  now ← datetime_now;
  mret (seconds_from now target).

Definition send_notification (title message : string) (timeout : Z) : M unit :=
  emit (Show title message (timeout * 1000)).

Definition within_work_hours (start end_ : time) : M bool :=
  now ← datetime_now;
  mret (time_le start (dt_time now) && time_le (dt_time now) end_)%bool.

(** The date-time [sleep_until_work_start] chooses once the clock has
    read [now]. *)
Definition next_start (now : datetime) (start : time) : datetime :=
  let today_start := combine (dt_date now) start in
  if datetime_ge now today_start then
    let tomorrow := dt_date now + 1 in
    combine tomorrow start
  else today_start.

Definition sleep_until_work_start (start : time) : M unit :=
  now ← datetime_now;
  sleep_duration ← time_until (next_start now start);
  print (OutsideWorkHours sleep_duration start);;
  asyncio_sleep sleep_duration.

(** What [main] has resolved before it enters its loop. *)
Record Configuration := mk_configuration {
  config_path : string;
  interval_seconds : Z;
  work_start : time;
  work_end : time
}.

(** The first five statements of [main]. *)
Definition resolve : M Configuration :=
  path ← get_config_path;
  config ← load_config path;
  let interval := cfg_interval config in
  start ← parse_time (cfg_start config);
  end_ ← parse_time (cfg_end config);
  mret (mk_configuration path interval start end_).

(** One pass through the body of [while True]; the result is the value of
    [first_run] the next pass starts with. *)
Definition iteration (c : Configuration) (first_run : bool) : M bool :=
  inside ← within_work_hours (work_start c) (work_end c);
  if inside : bool then
    if first_run then
      send_notification NOTIFICATION_TITLE "Starting work." 10;;
      print (DelayingFirst (interval_seconds c));;
      asyncio_sleep (inject_Z (interval_seconds c));;
      mret false
    else
      send_notification NOTIFICATION_TITLE NOTIFICATION_MESSAGE 10;;
      now ← datetime_now;
      print (NotificationSent (dt_time now));;
      asyncio_sleep (inject_Z (interval_seconds c));;
      mret first_run
  else
    sleep_until_work_start (work_start c);;
    mret true.

(** The first [n] passes of the loop. *)
Fixpoint loop (c : Configuration) (n : nat) (first_run : bool) : M bool :=
  match n with
  | O => mret first_run
  | S n' => first_run' ← iteration c first_run; loop c n' first_run'
  end.

(** [main], cut off after [n] passes of its loop, which has no exit. *)
Definition main (n : nat) : M bool :=
  c ← resolve;
  print (UsingConfigFile (config_path c));;
  print (WorkHours (work_start c) (work_end c) (interval_seconds c));;
  loop c n true.

(** ** Running a computation *)

(** The value a computation returns from a world, if it returns. *)
Definition answer {A} (m : M A) (w : World) : option A :=
  match m w with
  | Ok (a, _) => Some a
  | Raise _ => None
  end.

(** The world after [k] more clock readings and the events [es]. *)
Definition advance (k : nat) (es : list Event) (w : World) : World :=
  mk_world (xdg_config_home w) (home_config w) (files w) (clock w)
           (k + reads w) (output w ++ es).

(** What was emitted between two worlds of one run. *)
Definition new_output (w w' : World) : list Event :=
  drop (length (output w)) (output w').

(** The reading the next call of [datetime.datetime.now()] returns. *)
Definition next_reading (w : World) : datetime := clock w (reads w).

(** ** Observing the loop *)

(** The answer the work-hours check gives in world [w]. *)
Definition window_check (c : Configuration) (w : World) : bool :=
  match within_work_hours (work_start c) (work_end c) w with
  | Ok (b, _) => b
  | Raise _ => false
  end.

(** One pass of the loop as it happened: the flag it started with, the
    worlds before and after it, the flag it left. *)
Record Pass := mk_pass {
  p_first_run : bool;
  p_before : World;
  p_after : World;
  p_next : bool
}.

Definition p_inside (c : Configuration) (p : Pass) : bool :=
  window_check c (p_before p).

Definition p_events (p : Pass) : list Event :=
  new_output (p_before p) (p_after p).

(** The first [n] passes of the loop started in [w] with flag [first_run]. *)
Fixpoint passes (c : Configuration) (n : nat) (first_run : bool) (w : World)
  : list Pass :=
  match n with
  | O => []
  | S n' =>
      match iteration c first_run w with
      | Ok (first_run', w') =>
          mk_pass first_run w w' first_run' :: passes c n' first_run' w'
      | Raise _ => []
      end
  end.

Definition is_print (e : Event) : bool :=
  match e with Print _ => true | _ => false end.

Definition is_show (e : Event) : bool :=
  match e with Show _ _ _ => true | _ => false end.

(** The notifications and suspensions of a trace, without the printed
    lines. *)
Definition effects (es : list Event) : list Event :=
  List.filter (fun e => negb (is_print e)) es.

(** The notifications of a trace. *)
Definition notifications (es : list Event) : list Event :=
  List.filter is_show es.

(** [Notifier.show(title, message, timeout)] in seconds, as
    [send_notification] passes it on in milliseconds. *)
Definition Notifier_show (title message : string) (timeout : Z) : Event :=
  Show title message (timeout * 1000).

Definition greeting : Event :=
  Notifier_show NOTIFICATION_TITLE "Starting work." 10.

Definition reminder : Event :=
  Notifier_show NOTIFICATION_TITLE NOTIFICATION_MESSAGE 10.

(** What a pass emits, by the three branches of the loop body. *)
Definition greeting_events (c : Configuration) : list Event :=
  [greeting; Print (DelayingFirst (interval_seconds c));
   Sleep (inject_Z (interval_seconds c))].

Definition reminder_events (c : Configuration) (w : World) : list Event :=
  [reminder; Print (NotificationSent (dt_time (clock w (1 + reads w))));
   Sleep (inject_Z (interval_seconds c))].

(** The duration an outside pass started in [w] sleeps for: the check has
    taken one reading, the choice of the next start takes the second, the
    difference is taken from the third. *)
Definition outside_duration (c : Configuration) (w : World) : Q :=
  seconds_from (clock w (2 + reads w))
               (next_start (clock w (1 + reads w)) (work_start c)).

Definition outside_events (c : Configuration) (w : World) : list Event :=
  [Print (OutsideWorkHours (outside_duration c w) (work_start c));
   Sleep (outside_duration c w)].

(** A pass recorded by [passes] is a run of the loop body. *)
Definition pass_of (c : Configuration) (p : Pass) : Prop :=
  iteration c (p_first_run p) (p_before p) = Ok (p_next p, p_after p).

(** What [resolve] reads of a world: the environment and the files. *)
Definition config_inputs (w : World) : World :=
  mk_world (xdg_config_home w) (home_config w) (files w)
           (fun _ => mk_datetime 0 (mk_time 0 0 0 0)) 0 [].

(** A computation that only reads the environment and the files: its
    outcome is the one it has on them alone, and it leaves the world as it
    found it. *)
Definition reader {A} (m : M A) : Prop :=
  forall w : World,
    m w = match m (config_inputs w) with
          | Ok (a, _) => Ok (a, w)
          | Raise e => Raise e
          end.

(** The values a document gives for the three keys, where it has them. *)
Definition interval_value (doc : ConfigParser) : option string :=
  cp_lookup doc "schedule" "interval".

Definition start_value (doc : ConfigParser) : option string :=
  cp_lookup doc "workhours" "start".

Definition end_value (doc : ConfigParser) : option string :=
  cp_lookup doc "workhours" "end".

(** The two lines [main] prints before its loop, and the world the loop
    starts in once [resolve] has returned [c] in [w]. *)
Definition startup_lines (c : Configuration) : list Event :=
  [Print (UsingConfigFile (config_path c));
   Print (WorkHours (work_start c) (work_end c) (interval_seconds c))].

Definition loop_entry (c : Configuration) (w : World) : World :=
  advance 0 (startup_lines c) w.

(** The notification and suspension of one steady pass. *)
Definition reminder_cycle (c : Configuration) : list Event :=
  [reminder; Sleep (inject_Z (interval_seconds c))].

(** ** Concrete worlds, for the examples *)

Definition nine : time := mk_time 9 0 0 0.
Definition seventeen : time := mk_time 17 0 0 0.

(** A clock that reads day 100, ten in the morning, and [n] seconds. *)
Definition morning_clock (n : nat) : datetime :=
  mk_datetime 100 (mk_time 10 0 (Z.of_nat n) 0).

(** A clock that reads day 100, eight in the evening, and [n] seconds. *)
Definition evening_clock (n : nat) : datetime :=
  mk_datetime 100 (mk_time 20 0 (Z.of_nat n) 0).

Definition fresh_world (fs : gmap string file) (c : nat -> datetime) : World :=
  mk_world None "/home/user/.config" fs c 0 [].

(** The configuration file of the scenario: a reminder every five seconds,
    all day long. *)
Definition scenario_doc : ConfigParser :=
  mk_parser ∅
    {[ "schedule" := {[ "interval" := "5" ]};
       "workhours" := {[ "start" := "00:00"; "end" := "23:59" ]} ]}.

Definition scenario_files : gmap string file :=
  {[ SYSTEM_CONFIG_PATH := Ini scenario_doc ]}.

Definition scenario_world : World := fresh_world scenario_files morning_clock.

Definition scenario_configuration : Configuration :=
  mk_configuration SYSTEM_CONFIG_PATH 5 (mk_time 0 0 0 0) (mk_time 23 59 0 0).

(** A file that gives the start of work and nothing else. *)
Definition start_only_doc : ConfigParser :=
  mk_parser ∅ {[ "workhours" := {[ "start" := "08:30" ]} ]}.

Definition start_only_world : World :=
  fresh_world {[ SYSTEM_CONFIG_PATH := Ini start_only_doc ]} morning_clock.

(** A file whose interval is not an integer. *)
Definition bad_interval_doc : ConfigParser :=
  mk_parser ∅ {[ "schedule" := {[ "interval" := "soon" ]} ]}.

Definition bad_interval_world : World :=
  fresh_world {[ SYSTEM_CONFIG_PATH := Ini bad_interval_doc ]} morning_clock.



(** A world with a file at the user's path, and none at the system's. *)
Definition user_path : string := "/home/user/.config/break-reminder.conf".

Definition user_world : World :=
  fresh_world {[ user_path := Ini scenario_doc ]} morning_clock.

(** Two calls of [resolve], one after the other. *)
Definition resolve_twice : M (Configuration * Configuration) :=
  c1 ← resolve; c2 ← resolve; mret (c1, c2).

(** Two worlds with the same environment and the same files. *)
Definition same_config_inputs (w1 w2 : World) : Prop :=
  xdg_config_home w1 = xdg_config_home w2 /\
  home_config w1 = home_config w2 /\
  files w1 = files w2.

(** A clock that reads the evening for the three readings of a pass
    outside the window, and the morning after that. *)
Definition reentry_clock (n : nat) : datetime :=
  if (n <? 3)%nat then evening_clock n else morning_clock n.

Definition default_configuration : Configuration :=
  mk_configuration SYSTEM_CONFIG_PATH 3600 nine seventeen.

(** ** Further observations *)

Definition is_sleep (e : Event) : bool :=
  match e with Sleep _ => true | _ => false end.

(** The suspensions of a trace. *)
Definition suspensions (es : list Event) : list Event :=
  List.filter is_sleep es.

(** What a computation returns or raises, without the world it leaves. *)
Definition outcome {A} (m : M A) (w : World) : Result A :=
  match m w with
  | Ok (a, _) => Ok a
  | Raise e => Raise e
  end.

(** A number below one hundred written with two decimal digits, and a
    time of day written HH:MM. *)
Definition digit_char (n : Z) : ascii := ascii_of_N (Z.to_N (48 + n)).

Definition two_digits (n : Z) : string :=
  String (digit_char (n / 10)) (String (digit_char (n mod 10)) EmptyString).

Definition HH_MM (h m : Z) : string :=
  two_digits h +:+ ":" +:+ two_digits m.

Definition time_eqb (a b : time) : bool :=
  (hour a =? hour b) && (minute a =? minute b) &&
  (second a =? second b) && (microsecond a =? microsecond b).

(** The two files [resolve] may look at. *)
Definition same_candidates (w1 w2 : World) : Prop :=
  xdg_config_home w1 = xdg_config_home w2 /\
  home_config w1 = home_config w2 /\
  files w1 !! USER_CONFIG_PATH w1 = files w2 !! USER_CONFIG_PATH w2 /\
  (files w1 !! USER_CONFIG_PATH w1 = None ->
   files w1 !! SYSTEM_CONFIG_PATH = files w2 !! SYSTEM_CONFIG_PATH).

(** A clock all of whose readings are well-formed date-times. *)
Definition valid_clock (w : World) : Prop :=
  forall i : nat, valid_time (dt_time (clock w i)).

(** A window that closes before it opens, as for a night shift. *)
Definition night_shift : Configuration :=
  mk_configuration SYSTEM_CONFIG_PATH 3600 (mk_time 22 0 0 0)
                   (mk_time 6 0 0 0).

(** A clock whose second reading is one second after the first. *)
Definition ticking_evening : World := fresh_world ∅ evening_clock.

(** The first two passes of the scenario. *)
Definition scenario_entry : World :=
  loop_entry scenario_configuration scenario_world.

Definition scenario_pass_0 : Pass :=
  mk_pass true scenario_entry
    (advance 1 (greeting_events scenario_configuration) scenario_entry) false.

Definition scenario_pass_1 : Pass :=
  let w1 := advance 1 (greeting_events scenario_configuration)
                    scenario_entry in
  mk_pass false w1
    (advance 2 (reminder_events scenario_configuration w1) w1) false.

(** A clock that reads the evening three times, then nine in the morning
    of the next day exactly. *)
Definition wake_clock (n : nat) : datetime :=
  if (n <? 3)%nat then evening_clock n else mk_datetime 101 nine.

Definition wake_world : World := fresh_world ∅ wake_clock.

Definition wake_pass_0 : Pass :=
  mk_pass true wake_world
    (advance 3 (outside_events default_configuration wake_world) wake_world)
    true.

Definition wake_pass_1 : Pass :=
  let w1 := advance 3 (outside_events default_configuration wake_world)
                    wake_world in
  mk_pass true w1 (advance 1 (greeting_events default_configuration) w1)
          false.

(** A clock that reads noon, one day later at every reading. *)
Definition noon_clock (n : nat) : datetime :=
  mk_datetime (100 + Z.of_nat n) (mk_time 12 0 0 0).

(** A number below ten written with one digit, and the ways of writing a
    time of day with or without the leading zeros. *)
Definition one_digit (n : Z) : string :=
  String (digit_char n) EmptyString.

Definition written (n : Z) : list string :=
  if n <? 10 then [two_digits n; one_digit n] else [two_digits n].

Definition written_times (h m : Z) : list string :=
  hs ← written h; ms ← written m; [hs +:+ ":" +:+ ms].

(** Every way of writing the time [h]:[m] parses to it. *)
Definition parses_back (h m : Z) : bool :=
  forallb (fun s => match strptime_HM s with
                    | Some t => time_eqb t (mk_time h m 0 0)
                    | None => false
                    end)
          (written_times h m).

(** A clock that reads half a minute before midnight. *)
Definition late_clock (n : nat) : datetime :=
  mk_datetime 100 (mk_time 23 59 30 0).

(** A world with a file at both paths: the user's is malformed. *)
Definition shadowed_world : World :=
  fresh_world {[ user_path := Malformed;
                 SYSTEM_CONFIG_PATH := Ini scenario_doc ]} morning_clock.

(** The same user file, no system file, another clock. *)
Definition shadowed_world' : World :=
  fresh_world {[ user_path := Malformed ]} evening_clock.

(** A world where XDG_CONFIG_HOME is set, to a directory written with a
    trailing slash. *)
Definition xdg_world : World :=
  mk_world (Some "/srv/conf/") "/home/user/.config" ∅ morning_clock 0 [].

(** ** Plain text *)

(** A string all of whose characters are ASCII.  On such strings the
    models of [int()] and of [strptime()] above are exact; beyond ASCII,
    Python also reads the decimal digits of other scripts, which this
    file does not model. *)
Definition is_ascii (s : string) : bool :=
  forallb (fun ch => (N_of_ascii ch <? 128)%N) (list_ascii_of_string s).









(** The run that leaves the window and re-enters it: the loop is entered
    in the evening with the flag cleared. *)
Definition reentry_world : World := fresh_world ∅ reentry_clock.

Definition reentry_pass_0 : Pass :=
  mk_pass false reentry_world
    (advance 3 (outside_events default_configuration reentry_world)
             reentry_world)
    true.

Definition reentry_pass_1 : Pass :=
  let w1 := advance 3 (outside_events default_configuration reentry_world)
                    reentry_world in
  mk_pass true w1 (advance 1 (greeting_events default_configuration) w1)
          false.

(** ** Times of day are ordered by their position in the day *)

(** Settles a goal [c = (x ?= y)] once the order of [x] and [y] follows
    from the context by linear arithmetic. *)
Ltac compare_by_lia :=
  symmetry;
  first [ apply Z.compare_eq_iff; lia
        | apply Z.compare_lt_iff; lia
        | apply Z.compare_gt_iff; lia ].

Lemma time_cmp_micros (a b : time) :
  valid_time a -> valid_time b ->
  time_cmp a b = (time_micros a ?= time_micros b).
Proof.
  intros (Ha & Hma & Hsa & Hua) (Hb & Hmb & Hsb & Hub).
  unfold time_cmp, time_tuple, time_micros; simpl.
  destruct (Z.compare_spec (hour a) (hour b)) as [Hh|Hh|Hh];
    [destruct (Z.compare_spec (minute a) (minute b)) as [Hm|Hm|Hm];
      [destruct (Z.compare_spec (second a) (second b)) as [Hs|Hs|Hs];
        [destruct (Z.compare_spec (microsecond a) (microsecond b))
           as [Hu|Hu|Hu] | | ] | | ] | | ];
    compare_by_lia.
Qed.

Lemma time_le_micros (a b : time) :
  valid_time a -> valid_time b ->
  time_le a b = true <-> time_micros a <= time_micros b.
Proof.
  intros Ha Hb. unfold time_le. rewrite (time_cmp_micros a b Ha Hb).
  destruct (Z.compare_spec (time_micros a) (time_micros b));
    split; intros; try lia; try reflexivity; discriminate.
Qed.

Lemma time_micros_inj (a b : time) :
  valid_time a -> valid_time b ->
  time_micros a = time_micros b -> a = b.
Proof.
  intros (Ha & Hma & Hsa & Hua) (Hb & Hmb & Hsb & Hub).
  destruct a as [h m s u], b as [h' m' s' u'];
    unfold time_micros; simpl in *; intros E.
  assert (h = h') by lia. assert (m = m') by lia.
  assert (s = s') by lia. assert (u = u') by lia. congruence.
Qed.

Lemma time_micros_range (t : time) :
  valid_time t -> 0 <= time_micros t < micros_per_day.
Proof.
  intros (H & Hm & Hs & Hu). unfold time_micros, micros_per_day. lia.
Qed.

Lemma datetime_sub_micros (a b : datetime) :
  datetime_sub a b = datetime_micros a - datetime_micros b.
Proof.
  unfold datetime_sub, datetime_micros, time_micros, micros_per_day. lia.
Qed.

Lemma datetime_cmp_micros (a b : datetime) :
  valid_time (dt_time a) -> valid_time (dt_time b) ->
  datetime_cmp a b = (datetime_micros a ?= datetime_micros b).
Proof.
  intros Ha Hb. unfold datetime_cmp, datetime_tuple.
  pose proof (time_micros_range _ Ha) as Ra.
  pose proof (time_micros_range _ Hb) as Rb.
  change (tuple_cmp (dt_date a :: time_tuple (dt_time a))
                    (dt_date b :: time_tuple (dt_time b)))
    with (match dt_date a ?= dt_date b with
          | Eq => time_cmp (dt_time a) (dt_time b)
          | c => c
          end).
  rewrite (time_cmp_micros _ _ Ha Hb).
  unfold datetime_micros, micros_per_day in *.
  destruct (Z.compare_spec (dt_date a) (dt_date b)) as [Hd|Hd|Hd].
  - rewrite Hd.
    destruct (Z.compare_spec (time_micros (dt_time a))
                             (time_micros (dt_time b)));
      compare_by_lia.
  - compare_by_lia.
  - compare_by_lia.
Qed.

(** ** The work-hours window *)

(** C1. The work-hours check answers true exactly when the clock's time
    of day lies between start and end, both ends included, in the order of
    the day; a window whose start equals its end holds that one instant,
    and a window whose start is after its end holds none. *)
Theorem within_work_hours_inclusive (start end_ : time) (w : World) :
  valid_time start -> valid_time end_ ->
  valid_time (dt_time (next_reading w)) ->
  let now := dt_time (next_reading w) in
  exists b : bool,
    answer (within_work_hours start end_) w = Some b /\
    (b = true <-> time_micros start <= time_micros now <= time_micros end_) /\
    (start = end_ -> (b = true <-> now = start)) /\
    (time_micros end_ < time_micros start -> b = false).
Proof.
  intros Hs He Hn now.
  exists (time_le start now && time_le now end_)%bool.
  assert (Hiff : (time_le start now && time_le now end_)%bool = true <->
                 time_micros start <= time_micros now <= time_micros end_).
  { rewrite andb_true_iff, (time_le_micros start now Hs Hn),
      (time_le_micros now end_ Hn He). reflexivity. }
  split; [reflexivity|]. split; [exact Hiff|]. split.
  - intros <-. rewrite Hiff. split.
    + intros [H1 H2]. apply time_micros_inj; trivial. lia.
    + intros ->. lia.
  - intros Hlt. apply not_true_is_false. rewrite Hiff. lia.
Qed.

Lemma within_work_hours_inclusive_witness :
  exists b : bool,
    answer (within_work_hours nine seventeen) (fresh_world ∅ morning_clock)
      = Some b /\
    (b = true <->
     time_micros nine <= time_micros (mk_time 10 0 0 0)
       <= time_micros seventeen) /\
    (nine = seventeen -> (b = true <-> mk_time 10 0 0 0 = nine)) /\
    (time_micros seventeen < time_micros nine -> b = false).
Proof.
  apply (within_work_hours_inclusive nine seventeen
           (fresh_world ∅ morning_clock));
    unfold valid_time; simpl; lia.
Defined.

(** ** Waiting for the next start of work *)

Lemma datetime_ge_micros (a b : datetime) :
  valid_time (dt_time a) -> valid_time (dt_time b) ->
  datetime_ge a b = true <-> datetime_micros b <= datetime_micros a.
Proof.
  intros Ha Hb. unfold datetime_ge. rewrite (datetime_cmp_micros a b Ha Hb).
  destruct (Z.compare_spec (datetime_micros a) (datetime_micros b));
    split; intros; try lia; try reflexivity; discriminate.
Qed.

Lemma next_start_cases (now : datetime) (start : time) :
  valid_time (dt_time now) -> valid_time start ->
  next_start now start =
    if time_micros (dt_time now) <? time_micros start
    then combine (dt_date now) start
    else combine (dt_date now + 1) start.
Proof.
  intros Hn Hs. unfold next_start.
  pose proof (datetime_ge_micros now (combine (dt_date now) start) Hn Hs) as G.
  unfold datetime_micros in G; simpl in G.
  destruct (Z.ltb_spec (time_micros (dt_time now)) (time_micros start)) as [L|L];
    destruct (datetime_ge now (combine (dt_date now) start)); trivial.
  - assert (true = true) as T by reflexivity. apply G in T. lia.
  - assert (false = true) as F by (apply G; lia). discriminate.
Qed.

Lemma seconds_from_floor (now target : datetime) :
  (0 <= seconds_from now target)%Q.
Proof.
  unfold seconds_from.
  destruct (Qle_bool 0 (total_seconds (datetime_sub target now))) eqn:E.
  - apply Qle_bool_iff. exact E.
  - apply Qle_refl.
Qed.

Lemma seconds_from_future (now target : datetime) :
  datetime_micros now <= datetime_micros target ->
  seconds_from now target = total_seconds (datetime_sub target now).
Proof.
  intros H. unfold seconds_from.
  destruct (Qle_bool 0 (total_seconds (datetime_sub target now))) eqn:E;
    trivial.
  exfalso. apply not_true_iff_false in E. apply E.
  apply Qle_bool_iff. unfold total_seconds, Qle; simpl.
  rewrite datetime_sub_micros. lia.
Qed.

Lemma sleep_until_work_start_run (start : time) (w : World) :
  let d := seconds_from (clock w (S (reads w)))
                        (next_start (next_reading w) start) in
  sleep_until_work_start start w =
    Ok (tt, advance 2 [Print (OutsideWorkHours d start); Sleep d] w).
Proof.
  unfold sleep_until_work_start, time_until, print, asyncio_sleep, emit,
    datetime_now, advance, next_reading, mbind, M_bind, mret, M_ret; simpl.
  rewrite <- app_assoc. reflexivity.
Qed.

(** The date-time chosen is the first one after [now] whose time of day
    is [start]. *)
Lemma next_start_is_next (now : datetime) (start : time) :
  valid_time (dt_time now) -> valid_time start ->
  let target := next_start now start in
  dt_time target = start /\
  dt_date target =
    (if time_micros (dt_time now) <? time_micros start
     then dt_date now else dt_date now + 1) /\
  datetime_micros now < datetime_micros target /\
  (forall t : datetime,
     valid_time (dt_time t) -> dt_time t = start ->
     datetime_micros now < datetime_micros t ->
     datetime_micros target <= datetime_micros t).
Proof.
  intros Hn Hs target.
  pose proof (next_start_cases now start Hn Hs) as C.
  pose proof (time_micros_range _ Hn) as Rn.
  pose proof (time_micros_range _ Hs) as Rs.
  assert (Ht : dt_time target = start).
  { unfold target. rewrite C. destruct (_ <? _); reflexivity. }
  assert (Hd : dt_date target =
               if time_micros (dt_time now) <? time_micros start
               then dt_date now else dt_date now + 1).
  { unfold target. rewrite C. destruct (_ <? _); reflexivity. }
  split; [exact Ht|]. split; [exact Hd|]. split.
  - unfold datetime_micros. rewrite Ht, Hd. unfold micros_per_day in *.
    destruct (Z.ltb_spec (time_micros (dt_time now)) (time_micros start)); lia.
  - intros t Hv Et Lt. unfold datetime_micros in *.
    rewrite Ht, Hd, Et in *. unfold micros_per_day in *.
    destruct (Z.ltb_spec (time_micros (dt_time now)) (time_micros start));
      nia.
Qed.

(** The source reads the clock a second time, in [time_until].  When that
    reading is later than the first and still before the date-time chosen,
    the duration is the exact time from the later reading to that
    date-time, which is also the first start of work after it. *)
Lemma seconds_from_later_reading (now later : datetime) (start : time) :
  valid_time (dt_time now) -> valid_time start ->
  let target := next_start now start in
  datetime_micros now <= datetime_micros later ->
  datetime_micros later < datetime_micros target ->
  seconds_from later target = total_seconds (datetime_sub target later) /\
  datetime_micros later + datetime_sub target later = datetime_micros target /\
  (forall t : datetime,
     valid_time (dt_time t) -> dt_time t = start ->
     datetime_micros later < datetime_micros t ->
     datetime_micros target <= datetime_micros t).
Proof.
  intros Hn Hs target Hle Hlt.
  destruct (next_start_is_next now start Hn Hs) as (_ & _ & _ & Hleast).
  split; [apply seconds_from_future; lia|].
  split; [rewrite datetime_sub_micros; lia|].
  intros t Hv Et Lt. apply Hleast; trivial. lia.
Qed.

(** C2. When the clock reads [now], the duration computed for the sleep
    until work starts is not negative and is the exact time from [now] to
    the next date-time whose time of day is [start]: today's when [start]
    is still strictly ahead of [now]'s time of day, tomorrow's otherwise,
    also when the two are equal; [now] plus the duration is that
    date-time, and it is this duration the function sleeps for. *)
Theorem seconds_until_next_start (now : datetime) (start : time) :
  valid_time (dt_time now) -> valid_time start ->
  let target := next_start now start in
  let duration := seconds_from now target in
  (0 <= duration)%Q /\
  duration = total_seconds (datetime_sub target now) /\
  datetime_micros now + datetime_sub target now = datetime_micros target /\
  dt_time target = start /\
  dt_date target =
    (if time_micros (dt_time now) <? time_micros start
     then dt_date now else dt_date now + 1) /\
  datetime_micros now < datetime_micros target /\
  (forall t : datetime,
     valid_time (dt_time t) -> dt_time t = start ->
     datetime_micros now < datetime_micros t ->
     datetime_micros target <= datetime_micros t) /\
  (forall w : World,
     next_reading w = now -> clock w (S (reads w)) = now ->
     exists w', sleep_until_work_start start w = Ok (tt, w') /\
                new_output w w' =
                  [Print (OutsideWorkHours duration start); Sleep duration]).
Proof.
  intros Hn Hs target duration.
  destruct (next_start_is_next now start Hn Hs) as (Ht & Hd & Hlt & Hleast).
  fold target in Ht, Hd, Hlt, Hleast.
  split; [apply seconds_from_floor|].
  split; [apply seconds_from_future; lia|].
  split; [rewrite datetime_sub_micros; lia|].
  split; [exact Ht|]. split; [exact Hd|]. split; [exact Hlt|].
  split; [exact Hleast|].
  intros w E1 E2. eexists. split; [apply sleep_until_work_start_run|].
  unfold new_output, advance; simpl.
  rewrite drop_app_length. rewrite E1, E2. reflexivity.
Qed.

Lemma seconds_until_next_start_witness :
  let now := mk_datetime 100 (mk_time 20 0 0 0) in
  let target := next_start now nine in
  let duration := seconds_from now target in
  (0 <= duration)%Q /\
  duration = total_seconds (datetime_sub target now) /\
  datetime_micros now + datetime_sub target now = datetime_micros target /\
  dt_time target = nine /\
  dt_date target =
    (if time_micros (dt_time now) <? time_micros nine
     then dt_date now else dt_date now + 1) /\
  datetime_micros now < datetime_micros target /\
  (forall t : datetime,
     valid_time (dt_time t) -> dt_time t = nine ->
     datetime_micros now < datetime_micros t ->
     datetime_micros target <= datetime_micros t) /\
  (forall w : World,
     next_reading w = now -> clock w (S (reads w)) = now ->
     exists w', sleep_until_work_start nine w = Ok (tt, w') /\
                new_output w w' =
                  [Print (OutsideWorkHours duration nine); Sleep duration]).
Proof.
  apply (seconds_until_next_start (mk_datetime 100 (mk_time 20 0 0 0)) nine);
    unfold valid_time; simpl; lia.
Defined.

(** ** One pass of the loop *)

Lemma advance_advance (j k : nat) (es fs : list Event) (w : World) :
  advance j fs (advance k es w) = advance (j + k) (es ++ fs) w.
Proof.
  unfold advance; simpl. f_equal; [lia | symmetry; apply app_assoc].
Qed.

Lemma new_output_advance (k : nat) (es : list Event) (w : World) :
  new_output w (advance k es w) = es.
Proof. unfold new_output, advance; simpl. apply drop_app_length. Qed.

Lemma iteration_run (c : Configuration) (first_run : bool) (w : World) :
  iteration c first_run w =
    Ok (if window_check c w then
          if first_run then (false, advance 1 (greeting_events c) w)
          else (false, advance 2 (reminder_events c w) w)
        else (true, advance 3 (outside_events c w) w)).
Proof.
  unfold iteration, window_check, within_work_hours, sleep_until_work_start,
    time_until, send_notification, print, asyncio_sleep, emit, datetime_now,
    mbind, M_bind, mret, M_ret; simpl.
  destruct (time_le (work_start c) (dt_time (clock w (reads w))) &&
            time_le (dt_time (clock w (reads w))) (work_end c))%bool;
    [destruct first_run|]; simpl; unfold advance; simpl;
    repeat rewrite <- app_assoc; reflexivity.
Qed.

Lemma loop_unfold (c : Configuration) (n : nat) (first_run : bool) (w : World) :
  loop c (S n) first_run w =
    match iteration c first_run w with
    | Ok (first_run', w') => loop c n first_run' w'
    | Raise e => Raise e
    end.
Proof. reflexivity. Qed.

(** The loop never raises, and its output is what its passes emitted. *)
Lemma loop_passes (c : Configuration) (n : nat) :
  forall (first_run : bool) (w : World),
  exists (first_run' : bool) (w' : World),
    loop c n first_run w = Ok (first_run', w') /\
    length (passes c n first_run w) = n /\
    clock w' = clock w /\
    output w' = output w ++ concat (map p_events (passes c n first_run w)).
Proof.
  induction n as [|n IH]; intros first_run w.
  - exists first_run, w. simpl. rewrite app_nil_r. auto.
  - rewrite loop_unfold. simpl passes.
    rewrite (iteration_run c first_run w).
    set (r := if window_check c w then _ else _).
    destruct r as [fr1 w1] eqn:Er.
    destruct (IH fr1 w1) as (fr2 & w2 & Hl & Hn & Hc & Ho).
    exists fr2, w2. split; [exact Hl|]. simpl. split; [congruence|].
    assert (exists k es, w1 = advance k es w) as (k & es & ->).
    { subst r. destruct (window_check c w); [destruct first_run|];
        inversion Er; eauto. }
    split; [rewrite Hc; reflexivity|].
    rewrite Ho. unfold p_events at 2; simpl p_before; simpl p_after.
    rewrite new_output_advance. unfold advance; simpl.
    symmetry; apply app_assoc.
Qed.

Lemma passes_unfold (c : Configuration) (n : nat) (first_run : bool)
  (w : World) :
  passes c (S n) first_run w =
    (if window_check c w then
       if first_run then
         mk_pass true w (advance 1 (greeting_events c) w) false
           :: passes c n false (advance 1 (greeting_events c) w)
       else
         mk_pass false w (advance 2 (reminder_events c w) w) false
           :: passes c n false (advance 2 (reminder_events c w) w)
     else
       mk_pass first_run w (advance 3 (outside_events c w) w) true
         :: passes c n true (advance 3 (outside_events c w) w)).
Proof.
  simpl passes. rewrite iteration_run.
  destruct (window_check c w); [destruct first_run|]; reflexivity.
Qed.

Lemma effects_app (es fs : list Event) :
  effects (es ++ fs) = effects es ++ effects fs.
Proof. unfold effects. apply List.filter_app. Qed.

(** ** Inside the window: the greeting, then the reminders *)

Lemma loop_steady (c : Configuration) (k : nat) :
  forall w : World,
  Forall (fun p => p_inside c p = true) (passes c k false w) ->
  exists (w' : World) (es : list Event),
    loop c k false w = Ok (false, w') /\
    output w' = output w ++ es /\
    effects es = concat (replicate k (reminder_cycle c)).
Proof.
  induction k as [|k IH]; intros w Hall.
  - exists w, []. simpl. rewrite app_nil_r. auto.
  - rewrite passes_unfold in Hall. rewrite loop_unfold, iteration_run.
    destruct (window_check c w) eqn:Ew.
    + apply Forall_cons in Hall as [_ Hall].
      destruct (IH _ Hall) as (w' & es & Hl & Ho & He).
      exists w', (reminder_events c w ++ es).
      split; [exact Hl|]. split.
      * rewrite Ho. unfold advance; cbn [output].
        rewrite <- app_assoc. reflexivity.
      * rewrite effects_app, He. reflexivity.
    + apply Forall_cons in Hall as [Hin _].
      unfold p_inside in Hin; simpl in Hin. congruence.
Qed.

Lemma bind_Ok {A B} (m : M A) (k : A -> M B) (w w' : World) (a : A) :
  m w = Ok (a, w') -> (m ≫= k) w = k a w'.
Proof. intros H. unfold mbind, M_bind. rewrite H. reflexivity. Qed.

Lemma bind_Raise {A B} (m : M A) (k : A -> M B) (w : World) (e : Exn) :
  m w = Raise e -> (m ≫= k) w = Raise e.
Proof. intros H. unfold mbind, M_bind. rewrite H. reflexivity. Qed.

(** Resolving the configuration reads the world and leaves it as it was. *)
Lemma get_config_path_run (w : World) :
  get_config_path w =
    Ok (if bool_decide (is_Some (files w !! USER_CONFIG_PATH w))
        then USER_CONFIG_PATH w else SYSTEM_CONFIG_PATH, w).
Proof. reflexivity. Qed.

Lemma load_config_pure (path : string) (w w' : World) (config : Config) :
  load_config path w = Ok (config, w') -> w' = w.
Proof.
  unfold load_config, os_path_exists, config_read, cp_getint, cp_get,
    raise, mbind, M_bind, mret, M_ret.
  destruct (bool_decide (is_Some (files w !! path))).
  - destruct (files w !! path) as [[| |doc]|];
      try discriminate;
      match goal with
      | |- context [cp_lookup ?d "schedule" "interval"] =>
          destruct (cp_lookup d "schedule" "interval") as [v|];
          [destruct (py_int v)|]
      end; intros H; inversion H; reflexivity.
  - intros H; inversion H; reflexivity.
Qed.

Lemma parse_time_pure (s : string) (w w' : World) (t : time) :
  parse_time s w = Ok (t, w') -> w' = w /\ strptime_HM s = Some t.
Proof.
  unfold parse_time, raise, mret, M_ret.
  destruct (strptime_HM s); intros H; inversion H; auto.
Qed.

Lemma resolve_pure (w w' : World) (c : Configuration) :
  resolve w = Ok (c, w') -> w' = w.
Proof.
  unfold resolve. rewrite (bind_Ok _ _ _ _ _ (get_config_path_run w)).
  set (path := if bool_decide _ then _ else _).
  destruct (load_config path w) as [[config w1]|e] eqn:El.
  - rewrite (bind_Ok _ _ _ _ _ El).
    apply load_config_pure in El as ->.
    destruct (parse_time (cfg_start config) w) as [[s w2]|e] eqn:Es.
    + rewrite (bind_Ok _ _ _ _ _ Es). apply parse_time_pure in Es as [-> _].
      destruct (parse_time (cfg_end config) w) as [[e' w3]|e] eqn:Ee.
      * rewrite (bind_Ok _ _ _ _ _ Ee). apply parse_time_pure in Ee as [-> _].
        intros H; inversion H; reflexivity.
      * rewrite (bind_Raise _ _ _ _ Ee). discriminate.
    + rewrite (bind_Raise _ _ _ _ Es). discriminate.
  - rewrite (bind_Raise _ _ _ _ El). discriminate.
Qed.

Lemma main_after_resolve (n : nat) (w w0 : World) (c : Configuration) :
  resolve w = Ok (c, w0) ->
  main n w = loop c n true (loop_entry c w).
Proof.
  intros H. pose proof (resolve_pure _ _ _ H) as ->.
  unfold main. rewrite (bind_Ok _ _ _ _ _ H).
  unfold loop_entry, startup_lines, advance, print, emit, mbind, M_bind;
    simpl.
  rewrite <- app_assoc. reflexivity.
Qed.

(** C3. When the process starts inside the work window, the first
    notification is Notifier.show(title, "Starting work.", 10), followed
    by a suspension of the interval; as long as every further pass finds
    the clock inside the window, each one shows
    Notifier.show(title, "It's time to take a break and stretch!", 10)
    and suspends for the interval: after [S k] such passes the
    notifications and suspensions of the run are the greeting cycle and
    [k] reminder cycles, in that order, and nothing else. *)
Theorem starting_work_then_reminders (w w0 : World) (c : Configuration)
  (k : nat) :
  resolve w = Ok (c, w0) ->
  Forall (fun p => p_inside c p = true)
         (passes c (S k) true (loop_entry c w)) ->
  exists w' : World,
    main (S k) w = Ok (false, w') /\
    effects (new_output w w') =
      [Notifier_show NOTIFICATION_TITLE "Starting work." 10;
       Sleep (inject_Z (interval_seconds c))]
      ++ concat (replicate k
           [Notifier_show NOTIFICATION_TITLE
              "It's time to take a break and stretch!" 10;
            Sleep (inject_Z (interval_seconds c))]).
Proof.
  intros Hr Hall. rewrite (main_after_resolve _ _ _ _ Hr).
  rewrite passes_unfold in Hall. rewrite loop_unfold, iteration_run.
  destruct (window_check c (loop_entry c w)) eqn:Ew.
  - apply Forall_cons in Hall as [_ Hall].
    destruct (loop_steady c k _ Hall) as (w' & es & Hl & Ho & He).
    exists w'. split; [exact Hl|].
    unfold new_output. rewrite Ho. unfold loop_entry, advance; cbn [output].
    rewrite <- !app_assoc, drop_app_length, !effects_app, He.
    reflexivity.
  - apply Forall_cons in Hall as [Hin _].
    unfold p_inside in Hin; simpl in Hin. congruence.
Qed.

Lemma starting_work_then_reminders_witness :
  exists w' : World,
    main 3 scenario_world = Ok (false, w') /\
    effects (new_output scenario_world w') =
      [Notifier_show NOTIFICATION_TITLE "Starting work." 10;
       Sleep (inject_Z 5)]
      ++ concat (replicate 2
           [Notifier_show NOTIFICATION_TITLE
              "It's time to take a break and stretch!" 10;
            Sleep (inject_Z 5)]).
Proof.
  apply (starting_work_then_reminders scenario_world scenario_world
           scenario_configuration 2).
  - vm_compute. reflexivity.
  - vm_compute. repeat constructor.
Defined.

(** ** What every pass does *)

Lemma passes_are_iterations (c : Configuration) (n : nat) :
  forall (first_run : bool) (w : World) (p : Pass),
  p ∈ passes c n first_run w -> pass_of c p.
Proof.
  induction n as [|n IH]; intros first_run w p Hp.
  - simpl in Hp. inversion Hp.
  - simpl passes in Hp.
    destruct (iteration c first_run w) as [[fr1 w1]|e] eqn:Ei.
    + apply elem_of_cons in Hp as [->|Hp]; [exact Ei|].
      exact (IH _ _ _ Hp).
    + inversion Hp.
Qed.

Lemma passes_chain (c : Configuration) (n : nat) :
  forall (first_run : bool) (w : World) (i : nat) (p q : Pass),
  passes c n first_run w !! i = Some p ->
  passes c n first_run w !! S i = Some q ->
  p_first_run q = p_next p /\ p_before q = p_after p.
Proof.
  induction n as [|n IH]; intros first_run w i p q Hp Hq.
  - simpl in Hp. discriminate.
  - simpl passes in Hp, Hq.
    destruct (iteration c first_run w) as [[fr1 w1]|e]; [|discriminate].
    destruct i as [|i].
    + simpl in Hp, Hq. inversion Hp; subst p; clear Hp. simpl.
      destruct n as [|n]; [discriminate|]. simpl passes in Hq.
      destruct (iteration c fr1 w1) as [[fr2 w2]|e]; [|discriminate].
      simpl in Hq. inversion Hq; subst q. auto.
    + simpl in Hp, Hq. exact (IH _ _ _ _ _ Hp Hq).
Qed.

Lemma pass_outside (c : Configuration) (p : Pass) :
  pass_of c p -> p_inside c p = false ->
  p_next p = true /\ p_events p = outside_events c (p_before p).
Proof.
  unfold pass_of, p_inside, p_events. rewrite iteration_run.
  intros H E. rewrite E in H. inversion H as [[Hn Ha]].
  split; [reflexivity|]. apply new_output_advance.
Qed.

Lemma pass_inside (c : Configuration) (p : Pass) :
  pass_of c p -> p_inside c p = true ->
  p_next p = false /\
  p_events p = if p_first_run p then greeting_events c
               else reminder_events c (p_before p).
Proof.
  unfold pass_of, p_inside, p_events. rewrite iteration_run.
  intros H E. rewrite E in H.
  destruct (p_first_run p); inversion H as [[Hn Ha]];
    (split; [reflexivity|]); apply new_output_advance.
Qed.

Lemma passes_first (c : Configuration) (n : nat) (first_run : bool)
  (w : World) (p : Pass) :
  head (passes c n first_run w) = Some p ->
  p_first_run p = first_run /\ p_before p = w.
Proof.
  destruct n as [|n]; [discriminate|]. simpl passes.
  destruct (iteration c first_run w) as [[fr1 w1]|e]; [|discriminate].
  intros [= <-]. split; reflexivity.
Qed.

(** C4. Every pass whose window check fails sets first_run to true and
    does nothing but wait for the next start of work (one printed line,
    one sleep), so the flag is true whenever the loop waits for work
    hours.  The first pass starts, in the world the loop is entered in,
    with the flag it is entered with, which [main] sets to true, and
    every later pass starts where the pass before it stopped, with the
    flag that pass left.  A pass inside the window that starts with the
    flag set shows the "Starting work." greeting and clears the flag; so
    the pass that re-enters the window after a pass outside it starts
    with first_run true and its one notification is the greeting. *)
Theorem first_run_reset_outside_window (c : Configuration) (n : nat)
  (first_run : bool) (w : World) :
  let ps := passes c n first_run w in
  length ps = n /\
  (forall p : Pass, p ∈ ps -> p_inside c p = false ->
     p_next p = true /\
     p_events p =
       [Print (OutsideWorkHours (outside_duration c (p_before p))
                                (work_start c));
        Sleep (outside_duration c (p_before p))]) /\
  (forall p : Pass, head ps = Some p ->
     p_first_run p = first_run /\ p_before p = w) /\
  (forall (i : nat) (p q : Pass),
     ps !! i = Some p -> ps !! S i = Some q ->
     p_first_run q = p_next p /\ p_before q = p_after p) /\
  (forall p : Pass, p ∈ ps ->
     p_inside c p = true -> p_first_run p = true ->
     p_next p = false /\
     notifications (p_events p) =
       [Notifier_show NOTIFICATION_TITLE "Starting work." 10]) /\
  (forall (i : nat) (p q : Pass),
     ps !! i = Some p -> ps !! S i = Some q ->
     p_inside c p = false -> p_inside c q = true ->
     p_first_run q = true /\
     notifications (p_events q) =
       [Notifier_show NOTIFICATION_TITLE "Starting work." 10]).
Proof.
  intros ps. split; [|split; [|split; [|split; [|split]]]].
  - destruct (loop_passes c n first_run w) as (_ & _ & _ & Hn & _).
    exact Hn.
  - intros p Hp Ho.
    exact (pass_outside c p (passes_are_iterations _ _ _ _ _ Hp) Ho).
  - intros p Hp. exact (passes_first _ _ _ _ _ Hp).
  - intros i p q Hp Hq. exact (passes_chain _ _ _ _ _ _ _ Hp Hq).
  - intros p Hp Hi Hf.
    destruct (pass_inside c p (passes_are_iterations _ _ _ _ _ Hp) Hi)
      as [Hn He].
    split; [exact Hn|]. rewrite He, Hf. reflexivity.
  - intros i p q Hp Hq Ho Hi.
    assert (Pp : pass_of c p).
    { eapply passes_are_iterations, list_elem_of_lookup_2, Hp. }
    assert (Pq : pass_of c q).
    { eapply passes_are_iterations, list_elem_of_lookup_2, Hq. }
    destruct (passes_chain _ _ _ _ _ _ _ Hp Hq) as [Hf _].
    destruct (pass_outside c p Pp Ho) as [Hn _].
    destruct (pass_inside c q Pq Hi) as [_ He].
    rewrite Hf, Hn in *. split; [reflexivity|]. rewrite He. reflexivity.
Qed.

(** The run of the loop that leaves the window and re-enters it: entered
    with the flag cleared, a first pass in the evening sets it and waits,
    and the second pass, in the morning, greets. *)
Lemma first_run_reset_outside_window_witness :
  (p_next reentry_pass_0 = true /\
   p_events reentry_pass_0 =
     [Print (OutsideWorkHours
               (outside_duration default_configuration
                  (p_before reentry_pass_0))
               (work_start default_configuration));
      Sleep (outside_duration default_configuration
               (p_before reentry_pass_0))]) /\
  (p_first_run reentry_pass_1 = true /\
   notifications (p_events reentry_pass_1) =
     [Notifier_show NOTIFICATION_TITLE "Starting work." 10]).
Proof.
  destruct (first_run_reset_outside_window default_configuration 2 false
              reentry_world) as (_ & Hout & _ & _ & _ & Hre).
  split.
  - apply (Hout reentry_pass_0).
    + apply (list_elem_of_lookup_2 _ 0%nat). vm_compute. reflexivity.
    + vm_compute. reflexivity.
  - apply (Hre 0%nat reentry_pass_0 reentry_pass_1);
      vm_compute; reflexivity.
Defined.

(** C10. The loop runs any number of passes without raising, and its
    output is what the passes emitted, one after the other.  A pass whose
    window check answered false emits a printed line and one sleep, for
    the duration until the next start of work, and no notification; so a
    pass that shows a notification is one whose check answered true. *)
Theorem no_notification_outside_window (c : Configuration) (n : nat)
  (first_run : bool) (w : World) :
  exists (first_run' : bool) (w' : World),
    loop c n first_run w = Ok (first_run', w') /\
    length (passes c n first_run w) = n /\
    new_output w w' = concat (map p_events (passes c n first_run w)) /\
    forall p : Pass, p ∈ passes c n first_run w ->
      (p_inside c p = false ->
       p_events p =
         [Print (OutsideWorkHours (outside_duration c (p_before p))
                                  (work_start c));
          Sleep (outside_duration c (p_before p))] /\
       notifications (p_events p) = []) /\
      (notifications (p_events p) <> [] -> p_inside c p = true).
Proof.
  destruct (loop_passes c n first_run w) as (fr' & w' & Hl & Hn & _ & Ho).
  exists fr', w'. split; [exact Hl|]. split; [exact Hn|]. split.
  { unfold new_output. rewrite Ho. apply drop_app_length. }
  intros p Hp. pose proof (passes_are_iterations _ _ _ _ _ Hp) as Pp.
  assert (Hout : p_inside c p = false ->
                 p_events p = outside_events c (p_before p) /\
                 notifications (p_events p) = []).
  { intros Ho'. destruct (pass_outside c p Pp Ho') as [_ He].
    rewrite He. split; reflexivity. }
  split; [exact Hout|].
  intros Hne. destruct (p_inside c p) eqn:E; [reflexivity|].
  destruct (Hout eq_refl) as [_ Hnil]. contradiction.
Qed.

(** ** Resolving the configuration *)

Lemma load_config_missing (w : World) (path : string) :
  files w !! path = None ->
  load_config path w =
    Ok (mk_config DEFAULT_INTERVAL DEFAULT_START DEFAULT_END, w).
Proof.
  intros H. unfold load_config, os_path_exists, mbind, M_bind.
  rewrite H. reflexivity.
Qed.

Lemma load_config_unreadable (w : World) (path : string) :
  files w !! path = Some Unreadable ->
  load_config path w =
    Ok (mk_config DEFAULT_INTERVAL DEFAULT_START DEFAULT_END, w).
Proof.
  intros H. unfold load_config, os_path_exists, config_read, mbind, M_bind.
  rewrite H. cbn. rewrite H. reflexivity.
Qed.

Lemma load_config_malformed (w : World) (path : string) :
  files w !! path = Some Malformed ->
  load_config path w = Raise ParsingError.
Proof.
  intros H. unfold load_config, os_path_exists, config_read, mbind, M_bind.
  rewrite H. cbn. rewrite H. reflexivity.
Qed.

Lemma load_config_ini (w : World) (path : string) (doc : ConfigParser) :
  files w !! path = Some (Ini doc) ->
  load_config path w =
    match interval_value doc with
    | None =>
        Ok (mk_config DEFAULT_INTERVAL
              (default DEFAULT_START (start_value doc))
              (default DEFAULT_END (end_value doc)), w)
    | Some v =>
        match py_int v with
        | Some n =>
            Ok (mk_config n (default DEFAULT_START (start_value doc))
                  (default DEFAULT_END (end_value doc)), w)
        | None => Raise ValueError
        end
    end.
Proof.
  intros H.
  unfold load_config, os_path_exists, config_read, cp_getint, cp_get,
    interval_value, start_value, end_value, raise, mbind, M_bind, mret, M_ret.
  rewrite H. cbn. rewrite H.
  destruct (cp_lookup doc "schedule" "interval") as [v|]; [|reflexivity].
  destruct (py_int v); reflexivity.
Qed.

Lemma parse_time_run (s : string) (w : World) :
  parse_time s w = match strptime_HM s with
                   | Some t => Ok (t, w)
                   | None => Raise ValueError
                   end.
Proof. unfold parse_time. destruct (strptime_HM s); reflexivity. Qed.

Lemma resolve_run (w : World) (path : string) :
  answer get_config_path w = Some path ->
  resolve w =
    match load_config path w with
    | Ok (config, _) =>
        match strptime_HM (cfg_start config) with
        | Some s =>
            match strptime_HM (cfg_end config) with
            | Some e => Ok (mk_configuration path (cfg_interval config) s e, w)
            | None => Raise ValueError
            end
        | None => Raise ValueError
        end
    | Raise e => Raise e
    end.
Proof.
  unfold answer. rewrite get_config_path_run. intros [= <-].
  unfold resolve. rewrite (bind_Ok _ _ _ _ _ (get_config_path_run w)).
  set (path := if bool_decide _ then _ else _).
  destruct (load_config path w) as [[config w1]|e] eqn:El.
  - rewrite (bind_Ok _ _ _ _ _ El). apply load_config_pure in El as ->.
    unfold mbind, M_bind. rewrite !parse_time_run.
    destruct (strptime_HM (cfg_start config)); [|reflexivity].
    rewrite parse_time_run.
    destruct (strptime_HM (cfg_end config)); reflexivity.
  - rewrite (bind_Raise _ _ _ _ El). reflexivity.
Qed.

Lemma default_times :
  strptime_HM DEFAULT_START = Some nine /\
  strptime_HM DEFAULT_END = Some seventeen.
Proof. split; reflexivity. Qed.

(** *** What [strptime] accepts is a time of day *)

Lemma in_range_value (lo hi c : ascii) :
  in_range lo hi c = true ->
  digit_value lo <= digit_value c <= digit_value hi.
Proof.
  unfold in_range, digit_value. rewrite andb_true_iff, !N.leb_le. lia.
Qed.

Lemma is_digit_value (c : ascii) :
  is_digit c = true -> 0 <= digit_value c <= 9.
Proof.
  unfold is_digit, digit_value. rewrite andb_true_iff, !N.leb_le. lia.
Qed.

Lemma re_H_range (cs r : list ascii) (h : Z) :
  (h, r) ∈ re_H cs -> 0 <= h < 24.
Proof.
  unfold re_H. rewrite !elem_of_app. intros [H|[H|H]].
  - destruct cs as [|c1 [|c2 r0]]; try (by inversion H).
    destruct (Ascii.eqb c1 "2" && in_range "0" "3" c2)%bool eqn:E;
      [|by inversion H].
    apply list_elem_of_singleton in H. inversion H; subst.
    apply andb_true_iff in E as [_ E]. apply in_range_value in E.
    change (digit_value "0") with 0 in E.
    change (digit_value "3") with 3 in E. lia.
  - destruct cs as [|c1 [|c2 r0]]; try (by inversion H).
    destruct (in_range "0" "1" c1 && is_digit c2)%bool eqn:E;
      [|by inversion H].
    apply list_elem_of_singleton in H. inversion H; subst.
    apply andb_true_iff in E as [E1 E2].
    apply in_range_value in E1. apply is_digit_value in E2.
    change (digit_value "0") with 0 in E1.
    change (digit_value "1") with 1 in E1. lia.
  - destruct cs as [|c1 r0]; [by inversion H|].
    destruct (is_digit c1) eqn:E; [|by inversion H].
    apply list_elem_of_singleton in H. inversion H; subst.
    apply is_digit_value in E. lia.
Qed.

Lemma re_M_range (cs r : list ascii) (m : Z) :
  (m, r) ∈ re_M cs -> 0 <= m < 60.
Proof.
  unfold re_M. rewrite !elem_of_app. intros [H|H].
  - destruct cs as [|c1 [|c2 r0]]; try (by inversion H).
    destruct (in_range "0" "5" c1 && is_digit c2)%bool eqn:E;
      [|by inversion H].
    apply list_elem_of_singleton in H. inversion H; subst.
    apply andb_true_iff in E as [E1 E2].
    apply in_range_value in E1. apply is_digit_value in E2.
    change (digit_value "0") with 0 in E1.
    change (digit_value "5") with 5 in E1. lia.
  - destruct cs as [|c1 r0]; [by inversion H|].
    destruct (is_digit c1) eqn:E; [|by inversion H].
    apply list_elem_of_singleton in H. inversion H; subst.
    apply is_digit_value in E. lia.
Qed.

Lemma format_regex_match_range (cs r : list ascii) (h m : Z) :
  format_regex_match cs = Some (h, m, r) -> 0 <= h < 24 /\ 0 <= m < 60.
Proof.
  unfold format_regex_match. intros H. apply head_Some_elem_of in H.
  apply list_elem_of_bind in H as ([h' r1] & H & Hh).
  apply list_elem_of_bind in H as (r2 & H & _).
  apply list_elem_of_bind in H as ([m' r3] & H & Hm).
  apply list_elem_of_singleton in H. inversion H; subst.
  split; [exact (re_H_range _ _ _ Hh) | exact (re_M_range _ _ _ Hm)].
Qed.

Lemma strptime_HM_valid (s : string) (t : time) :
  strptime_HM s = Some t ->
  valid_time t /\ second t = 0 /\ microsecond t = 0.
Proof.
  unfold strptime_HM.
  destruct (format_regex_match (list_ascii_of_string s))
    as [[[h m] [|c r]]|] eqn:E; try discriminate.
  intros [= <-]. apply format_regex_match_range in E.
  unfold valid_time; simpl. lia.
Qed.

(** *** Defaults for what is absent *)

(** C5. When no file exists at the resolved path, or the file there lacks
    a key, the absent values are the defaults: interval 3600 seconds, work
    start "09:00", work end "17:00".  With no file, or with a file that
    has none of the three keys, the whole result is {3600, 09:00, 17:00}
    and nothing is raised; in a file that has some of them, each absent
    one is defaulted, and resolution succeeds as soon as the values that
    are present are well formed. *)
Theorem missing_values_default (w : World) (path : string) :
  answer get_config_path w = Some path ->
  (files w !! path = None ->
   load_config path w = Ok (mk_config 3600 "09:00" "17:00", w) /\
   resolve w =
     Ok (mk_configuration path 3600 (mk_time 9 0 0 0) (mk_time 17 0 0 0), w))
  /\
  (forall doc : ConfigParser,
     files w !! path = Some (Ini doc) ->
     (interval_value doc = None -> start_value doc = None ->
      end_value doc = None ->
      resolve w =
        Ok (mk_configuration path 3600 (mk_time 9 0 0 0) (mk_time 17 0 0 0),
            w)) /\
     (forall (c : Configuration) (w' : World),
        resolve w = Ok (c, w') ->
        (interval_value doc = None -> interval_seconds c = 3600) /\
        (start_value doc = None -> work_start c = mk_time 9 0 0 0) /\
        (end_value doc = None -> work_end c = mk_time 17 0 0 0)) /\
     ((forall v, interval_value doc = Some v -> is_Some (py_int v)) ->
      (forall v, start_value doc = Some v -> is_Some (strptime_HM v)) ->
      (forall v, end_value doc = Some v -> is_Some (strptime_HM v)) ->
      exists c : Configuration, resolve w = Ok (c, w))).
Proof.
  intros Hp. pose proof (resolve_run w path Hp) as R.
  split.
  - intros Hn. rewrite (load_config_missing w path Hn) in R |- *.
    split; [reflexivity | exact R].
  - intros doc Hd. rewrite (load_config_ini w path doc Hd) in R.
    split; [|split].
    + intros Ei Es Ee. rewrite R, Ei, Es, Ee. reflexivity.
    + intros c w' Hr. rewrite R in Hr.
      destruct (interval_value doc) as [v|] eqn:Ei;
        [destruct (py_int v) as [n|]; [|discriminate]|];
        simpl in Hr;
        (destruct (start_value doc) as [s|] eqn:Es; simpl in Hr;
         [destruct (strptime_HM s) as [ts|]; [|discriminate]|]);
        (destruct (end_value doc) as [e|] eqn:Ee; simpl in Hr;
         [destruct (strptime_HM e) as [te|]; [|discriminate]|]);
        inversion Hr; subst; simpl;
        repeat split; intros; try reflexivity; discriminate.
    + intros Wi Ws We. rewrite R.
      assert (exists ts, strptime_HM (default DEFAULT_START (start_value doc))
                         = Some ts) as [ts Ets].
      { destruct (start_value doc) as [s|]; simpl.
        - destruct (Ws s eq_refl) as [ts ->]; eauto.
        - eexists; reflexivity. }
      assert (exists te, strptime_HM (default DEFAULT_END (end_value doc))
                         = Some te) as [te Ete].
      { destruct (end_value doc) as [e|]; simpl.
        - destruct (We e eq_refl) as [te ->]; eauto.
        - eexists; reflexivity. }
      destruct (interval_value doc) as [v|].
      * destruct (Wi v eq_refl) as [n ->]. simpl. rewrite Ets, Ete. eauto.
      * simpl. rewrite Ets, Ete. eauto.
Qed.

Lemma missing_values_default_witness :
  (files start_only_world !! SYSTEM_CONFIG_PATH = None ->
   load_config SYSTEM_CONFIG_PATH start_only_world =
     Ok (mk_config 3600 "09:00" "17:00", start_only_world) /\
   resolve start_only_world =
     Ok (mk_configuration SYSTEM_CONFIG_PATH 3600 (mk_time 9 0 0 0)
           (mk_time 17 0 0 0), start_only_world))
  /\
  (forall doc : ConfigParser,
     files start_only_world !! SYSTEM_CONFIG_PATH = Some (Ini doc) ->
     (interval_value doc = None -> start_value doc = None ->
      end_value doc = None ->
      resolve start_only_world =
        Ok (mk_configuration SYSTEM_CONFIG_PATH 3600 (mk_time 9 0 0 0)
              (mk_time 17 0 0 0), start_only_world)) /\
     (forall (c : Configuration) (w' : World),
        resolve start_only_world = Ok (c, w') ->
        (interval_value doc = None -> interval_seconds c = 3600) /\
        (start_value doc = None -> work_start c = mk_time 9 0 0 0) /\
        (end_value doc = None -> work_end c = mk_time 17 0 0 0)) /\
     ((forall v, interval_value doc = Some v -> is_Some (py_int v)) ->
      (forall v, start_value doc = Some v -> is_Some (strptime_HM v)) ->
      (forall v, end_value doc = Some v -> is_Some (strptime_HM v)) ->
      exists c : Configuration, resolve start_only_world = Ok (c, start_only_world))).
Proof.
  apply (missing_values_default start_only_world SYSTEM_CONFIG_PATH).
  vm_compute. reflexivity.
Defined.

(** The scenarios C5 speaks of, run: no file at all, and a file that gives
    only the start of work. *)
Example resolve_without_file :
  resolve (fresh_world ∅ morning_clock) =
    Ok (mk_configuration SYSTEM_CONFIG_PATH 3600 nine seventeen,
        fresh_world ∅ morning_clock).
Proof. vm_compute. reflexivity. Qed.

Example resolve_start_only :
  resolve start_only_world =
    Ok (mk_configuration SYSTEM_CONFIG_PATH 3600 (mk_time 8 30 0 0) seventeen,
        start_only_world).
Proof. vm_compute. reflexivity. Qed.

(** *** Malformed values are errors *)





(** A file that is not INI at all is an error as well. *)
Lemma malformed_file_raises (w : World) (path : string) :
  answer get_config_path w = Some path ->
  files w !! path = Some Malformed ->
  resolve w = Raise ParsingError.
Proof.
  intros Hp Hd. rewrite (resolve_run w path Hp).
  rewrite (load_config_malformed w path Hd). reflexivity.
Qed.

Example resolve_bad_interval :
  interval_value bad_interval_doc = Some "soon" /\
  py_int "soon" = None /\
  resolve bad_interval_world = Raise ValueError.
Proof. vm_compute. auto. Qed.

Example parse_time_rejects :
  strptime_HM "25:00" = None /\ strptime_HM "09:60" = None /\
  strptime_HM "0900" = None /\ strptime_HM "" = None /\
  strptime_HM "9:5" = Some (mk_time 9 5 0 0).
Proof. vm_compute. auto 6. Qed.

(** *** Where the configuration is looked for *)

Lemma os_path_join_directory (d name : string) :
  starts_with_slash name = false -> d <> "" -> ends_with_slash d = false ->
  os_path_join d name = d +:+ "/" +:+ name.
Proof.
  intros Hn Hd He. unfold os_path_join. rewrite Hn, He.
  destruct (String.eqb_spec d ""); [contradiction|reflexivity].
Qed.

(** C7. The path resolved is the user's path when a file exists there,
    and the fixed system-wide path /etc/xdg/break-reminder.conf when none
    does, whether or not the system-wide file exists.  The user's path is
    break-reminder.conf in the directory $XDG_CONFIG_HOME, or in ~/.config
    when the variable is unset. *)
Theorem get_config_path_prefers_user (w : World) :
  let directory := match xdg_config_home w with
                   | Some d => d
                   | None => home_config w
                   end in
  let user := os_path_join directory "break-reminder.conf" in
  (directory <> "" -> ends_with_slash directory = false ->
   user = directory +:+ "/break-reminder.conf") /\
  exists path : string,
    get_config_path w = Ok (path, w) /\
    (is_Some (files w !! user) -> path = user) /\
    (files w !! user = None -> path = "/etc/xdg/break-reminder.conf") /\
    (user <> "/etc/xdg/break-reminder.conf" ->
     (path = user <-> is_Some (files w !! user))).
Proof.
  intros directory user.
  assert (Eu : USER_CONFIG_PATH w = user).
  { unfold USER_CONFIG_PATH, user, directory.
    destruct (xdg_config_home w); reflexivity. }
  split.
  { intros Hd He.
    exact (os_path_join_directory directory "break-reminder.conf"
             eq_refl Hd He). }
  eexists. split; [apply get_config_path_run|]. rewrite Eu.
  destruct (files w !! user) as [f|] eqn:E.
  - rewrite bool_decide_eq_true_2 by eauto.
    repeat split; eauto; discriminate.
  - rewrite bool_decide_eq_false_2 by (intros [? ?]; discriminate).
    repeat split; try reflexivity.
    + intros [? ?]; discriminate.
    + intros; exfalso; eauto.
    + intros [? ?]; discriminate.
Qed.

Example get_config_path_user :
  get_config_path user_world = Ok (user_path, user_world).
Proof. vm_compute. reflexivity. Qed.

Example get_config_path_system :
  files scenario_world !! user_path = None /\
  get_config_path scenario_world = Ok (SYSTEM_CONFIG_PATH, scenario_world) /\
  get_config_path (fresh_world ∅ morning_clock) =
    Ok (SYSTEM_CONFIG_PATH, fresh_world ∅ morning_clock).
Proof. vm_compute. auto. Qed.

(** *** The invariant of a resolved configuration *)




(** *** Resolving twice *)

Lemma config_inputs_idem (w : World) :
  config_inputs (config_inputs w) = config_inputs w.
Proof. reflexivity. Qed.

Lemma reader_ret {A} (a : A) : reader (mret a : M A).
Proof. intros w. reflexivity. Qed.

Lemma reader_raise {A} (e : Exn) : reader (raise e : M A).
Proof. intros w. reflexivity. Qed.

Lemma reader_bind {A B} (m : M A) (k : A -> M B) :
  reader m -> (forall a, reader (k a)) -> reader (m ≫= k).
Proof.
  intros Hm Hk w. unfold mbind, M_bind.
  pose proof (Hm (config_inputs w)) as Hi. rewrite config_inputs_idem in Hi.
  rewrite (Hm w).
  destruct (m (config_inputs w)) as [[a w1]|e]; [|reflexivity].
  inversion Hi; subst w1. apply Hk.
Qed.

Lemma reader_get_config_path : reader get_config_path.
Proof. intros w. reflexivity. Qed.

Lemma reader_os_path_exists (path : string) : reader (os_path_exists path).
Proof. intros w. reflexivity. Qed.

Lemma reader_config_read (path : string) : reader (config_read path).
Proof.
  intros w. unfold config_read, config_inputs; simpl.
  destruct (files w !! path) as [[| |doc]|]; reflexivity.
Qed.

Lemma reader_cp_getint (config : ConfigParser) (section key : string)
  (fallback : Z) : reader (cp_getint config section key fallback).
Proof.
  intros w. unfold cp_getint.
  destruct (cp_lookup config section key) as [v|]; [|reflexivity].
  destruct (py_int v); reflexivity.
Qed.

Lemma reader_cp_get (config : ConfigParser) (section key fallback : string) :
  reader (cp_get config section key fallback).
Proof. apply reader_ret. Qed.

Create HintDb readers.
#[local] Hint Resolve reader_ret reader_raise reader_get_config_path
  reader_os_path_exists reader_config_read reader_cp_getint reader_cp_get
  : readers.

(** Splits a sequence of statements into its statements. *)
Ltac reader_steps :=
  repeat (apply reader_bind; [auto with readers | intros ?]);
  auto with readers.

Lemma reader_load_config (path : string) : reader (load_config path).
Proof.
  unfold load_config.
  apply reader_bind; [auto with readers|]. intros [|]; reader_steps.
Qed.

Lemma reader_parse_time (s : string) : reader (parse_time s).
Proof. unfold parse_time. destruct (strptime_HM s); auto with readers. Qed.

#[local] Hint Resolve reader_load_config reader_parse_time : readers.

Lemma reader_resolve : reader resolve.
Proof. unfold resolve. reader_steps. Qed.

Lemma same_config_inputs_eq (w1 w2 : World) :
  same_config_inputs w1 w2 -> config_inputs w1 = config_inputs w2.
Proof.
  intros (Hx & Hh & Hf). unfold config_inputs. rewrite Hx, Hh, Hf.
  reflexivity.
Qed.

(** C9. A call of [resolve] changes nothing in the world, so a second
    call right after the first returns an equal configuration; and the
    result depends on the environment and the files only: in any world
    with the same ones, [resolve] returns the same configuration. *)
Theorem resolve_twice_equal (w w' : World) (c : Configuration) :
  resolve w = Ok (c, w') ->
  w' = w /\
  resolve_twice w = Ok ((c, c), w) /\
  forall w2 : World,
    same_config_inputs w w2 -> resolve w2 = Ok (c, w2).
Proof.
  intros Hr. pose proof (resolve_pure _ _ _ Hr) as ->.
  split; [reflexivity|]. split.
  - unfold resolve_twice.
    rewrite (bind_Ok _ _ _ _ _ Hr), (bind_Ok _ _ _ _ _ Hr). reflexivity.
  - intros w2 Hs. rewrite (reader_resolve w2).
    rewrite <- (same_config_inputs_eq _ _ Hs).
    rewrite (reader_resolve w) in Hr.
    destruct (resolve (config_inputs w)) as [[c0 w0]|e]; [|discriminate].
    inversion Hr; subst. reflexivity.
Qed.

Lemma resolve_twice_equal_witness :
  scenario_world = scenario_world /\
  resolve_twice scenario_world =
    Ok ((scenario_configuration, scenario_configuration), scenario_world) /\
  forall w2 : World,
    same_config_inputs scenario_world w2 ->
    resolve w2 = Ok (scenario_configuration, w2).
Proof.
  apply (resolve_twice_equal scenario_world scenario_world
           scenario_configuration).
  vm_compute. reflexivity.
Defined.

(** Errors are as repeatable as results. *)
Lemma resolve_raise_deterministic (w w2 : World) (e : Exn) :
  resolve w = Raise e -> same_config_inputs w w2 -> resolve w2 = Raise e.
Proof.
  intros Hr Hs. rewrite (reader_resolve w2).
  rewrite <- (same_config_inputs_eq _ _ Hs).
  rewrite (reader_resolve w) in Hr.
  destruct (resolve (config_inputs w)) as [[c0 w0]|e0]; [discriminate|].
  exact Hr.
Qed.

(** ** The scenarios of the specification, run *)

(** Started at eight in the evening with the default window, the process
    notifies nothing and sleeps until nine the next morning: 12 hours 59
    minutes and 58 seconds from the third reading of the clock. *)
Example started_outside_window :
  exists w' : World,
    main 1 (fresh_world ∅ evening_clock) = Ok (true, w') /\
    effects (output w') = [Sleep (46798000000 # 1000000)].
Proof. eexists. split; vm_compute; reflexivity. Qed.

(** A pass outside the window, then the window is entered: the second
    pass starts with the flag set and greets. *)
Example reentry_greets :
  map (fun p => (p_first_run p, p_inside default_configuration p,
                 notifications (p_events p), p_next p))
      (passes default_configuration 3 false
              (fresh_world ∅ reentry_clock)) =
    [(false, false, [], true);
     (true, true, [greeting], false);
     (false, true, [reminder], false)].
Proof. vm_compute. reflexivity. Qed.

(** The window check at its two ends, and with the ends swapped. *)
Example window_ends :
  answer (within_work_hours (mk_time 10 0 0 0) seventeen)
         (fresh_world ∅ morning_clock) = Some true /\
  answer (within_work_hours nine (mk_time 10 0 0 0))
         (fresh_world ∅ morning_clock) = Some true /\
  answer (within_work_hours (mk_time 10 0 0 0) (mk_time 10 0 0 0))
         (fresh_world ∅ morning_clock) = Some true /\
  answer (within_work_hours (mk_time 22 0 0 0) (mk_time 11 0 0 0))
         (fresh_world ∅ morning_clock) = Some false.
Proof. vm_compute. auto. Qed.

(** * Further properties of the program *)

(** ** [sleep_until_work_start] *)

Lemma next_start_within_a_day (now : datetime) (start : time) :
  valid_time (dt_time now) -> valid_time start ->
  datetime_micros (next_start now start) - datetime_micros now
    <= micros_per_day.
Proof.
  intros Hn Hs. rewrite (next_start_cases now start Hn Hs).
  pose proof (time_micros_range _ Hn). pose proof (time_micros_range _ Hs).
  unfold datetime_micros.
  destruct (Z.ltb_spec (time_micros (dt_time now)) (time_micros start));
    simpl; unfold micros_per_day in *; lia.
Qed.

(** X2. Whatever the clock reads, [sleep_until_work_start] prints one
    line and suspends once, for a duration that is never negative; when
    the second reading of the clock is not before the first, the
    suspension is at most one day (86400 seconds). *)
Theorem sleep_at_most_a_day (start : time) (w : World) :
  valid_time start -> valid_time (dt_time (next_reading w)) ->
  exists (d : Q) (w' : World),
    sleep_until_work_start start w = Ok (tt, w') /\
    new_output w w' = [Print (OutsideWorkHours d start); Sleep d] /\
    (0 <= d)%Q /\
    (datetime_micros (next_reading w)
       <= datetime_micros (clock w (S (reads w))) ->
     (d <= 86400)%Q).
Proof.
  intros Hs Hn. eexists. eexists.
  split; [apply sleep_until_work_start_run|].
  split; [apply new_output_advance|].
  split; [apply seconds_from_floor|].
  intros Hmono.
  pose proof (next_start_within_a_day (next_reading w) start Hn Hs) as D.
  unfold seconds_from.
  destruct (Qle_bool 0 _); [|unfold Qle; simpl; lia].
  unfold total_seconds, Qle; simpl. rewrite datetime_sub_micros.
  unfold micros_per_day in D. lia.
Qed.

Lemma sleep_at_most_a_day_witness :
  exists (d : Q) (w' : World),
    sleep_until_work_start nine ticking_evening = Ok (tt, w') /\
    new_output ticking_evening w' =
      [Print (OutsideWorkHours d nine); Sleep d] /\
    (0 <= d)%Q /\
    (datetime_micros (next_reading ticking_evening)
       <= datetime_micros (clock ticking_evening (S (reads ticking_evening))) ->
     (d <= 86400)%Q).
Proof.
  apply (sleep_at_most_a_day nine ticking_evening);
    unfold valid_time; simpl; lia.
Defined.

(** ** The loop *)

(** What one pass emits, whichever branch it takes. *)
Lemma pass_events_cases (c : Configuration) (p : Pass) :
  pass_of c p ->
  (p_inside c p = true /\ p_first_run p = true /\
   p_events p = greeting_events c) \/
  (p_inside c p = true /\ p_first_run p = false /\
   p_events p = reminder_events c (p_before p)) \/
  (p_inside c p = false /\ p_events p = outside_events c (p_before p)).
Proof.
  intros Pp. destruct (p_inside c p) eqn:E.
  - destruct (pass_inside c p Pp E) as [_ He].
    destruct (p_first_run p); [left | right; left]; auto.
  - right; right. destruct (pass_outside c p Pp E) as [_ He]. auto.
Qed.

Lemma suspensions_concat (l : list (list Event)) :
  Forall (fun es => length (suspensions es) = 1%nat) l ->
  length (suspensions (concat l)) = length l.
Proof.
  induction 1 as [|es l Hes _ IH]; [reflexivity|].
  simpl. unfold suspensions in *. rewrite List.filter_app, length_app.
  rewrite Hes, IH. reflexivity.
Qed.

(** X4. Every pass of the loop suspends exactly once, as the last thing
    it does, and shows at most one notification; a pass inside the window
    suspends for the configured interval.  So after [n] passes the loop
    has suspended exactly [n] times: no pass goes round without
    sleeping. *)
Theorem one_suspension_per_pass (c : Configuration) (n : nat)
  (first_run : bool) (w : World) :
  exists (first_run' : bool) (w' : World),
    loop c n first_run w = Ok (first_run', w') /\
    length (suspensions (new_output w w')) = n /\
    forall p : Pass, p ∈ passes c n first_run w ->
      (exists (es : list Event) (d : Q),
         p_events p = es ++ [Sleep d] /\ suspensions es = [] /\
         (p_inside c p = true -> d = inject_Z (interval_seconds c))) /\
      (length (notifications (p_events p)) <= 1)%nat.
Proof.
  destruct (loop_passes c n first_run w) as (fr' & w' & Hl & Hn & _ & Ho).
  exists fr', w'. split; [exact Hl|].
  assert (Each : forall p : Pass, p ∈ passes c n first_run w ->
            (exists (es : list Event) (d : Q),
               p_events p = es ++ [Sleep d] /\ suspensions es = [] /\
               (p_inside c p = true -> d = inject_Z (interval_seconds c))) /\
            (length (notifications (p_events p)) <= 1)%nat).
  { intros p Hp. pose proof (passes_are_iterations _ _ _ _ _ Hp) as Pp.
    destruct (pass_events_cases c p Pp)
      as [(Hi & _ & He)|[(Hi & _ & He)|(Hi & He)]]; rewrite He.
    - split; [|simpl; lia].
      exists [greeting; Print (DelayingFirst (interval_seconds c))],
             (inject_Z (interval_seconds c)). auto.
    - split; [|simpl; lia].
      exists [reminder;
              Print (NotificationSent
                       (dt_time (clock (p_before p) (1 + reads (p_before p)))))],
             (inject_Z (interval_seconds c)). auto.
    - split; [|simpl; lia].
      exists [Print (OutsideWorkHours (outside_duration c (p_before p))
                                      (work_start c))],
             (outside_duration c (p_before p)).
      split; [reflexivity|]. split; [reflexivity|]. congruence. }
  split; [|exact Each].
  unfold new_output. rewrite Ho, drop_app_length.
  rewrite suspensions_concat, length_map; [exact Hn|].
  apply Forall_forall. intros es Hes.
  apply list_elem_of_fmap in Hes as (p & -> & Hp).
  destruct (Each p Hp) as [(es & d & -> & Hnil & _) _].
  unfold suspensions in *. rewrite List.filter_app, Hnil. reflexivity.
Qed.

(** X5. The loop shows two notifications and no other: each one has the
    title "Break Reminder" and a timeout of 10 seconds (10000 ms), and
    its message is either "Starting work." or "It's time to take a break
    and stretch!". *)
Theorem only_two_notifications (c : Configuration) (n : nat)
  (first_run : bool) (w : World) :
  exists (first_run' : bool) (w' : World),
    loop c n first_run w = Ok (first_run', w') /\
    forall (title message : string) (timeout_ms : Z),
      Show title message timeout_ms ∈ new_output w w' ->
      title = "Break Reminder" /\ timeout_ms = 10000 /\
      (message = "Starting work." \/
       message = "It's time to take a break and stretch!").
Proof.
  destruct (loop_passes c n first_run w) as (fr' & w' & Hl & _ & _ & Ho).
  exists fr', w'. split; [exact Hl|].
  intros title message timeout_ms Hin.
  unfold new_output in Hin. rewrite Ho, drop_app_length in Hin.
  apply list_elem_of_In, in_concat in Hin as (es & Hes & Hin).
  apply in_map_iff in Hes as (p & <- & Hp).
  apply list_elem_of_In in Hp.
  pose proof (passes_are_iterations _ _ _ _ _ Hp) as Pp.
  destruct (pass_events_cases c p Pp)
    as [(_ & _ & He)|[(_ & _ & He)|(_ & He)]];
    rewrite He in Hin; simpl in Hin;
    repeat (destruct Hin as [Hin|Hin]; [inversion Hin; subst; auto|]);
    contradiction.
Qed.

(** X6. Between two passes that both find the clock inside the window
    the flag is false: the second one shows the steady reminder, never
    the greeting again. *)
Theorem reminder_while_inside (c : Configuration) (n : nat)
  (first_run : bool) (w : World) :
  forall (i : nat) (p q : Pass),
    passes c n first_run w !! i = Some p ->
    passes c n first_run w !! S i = Some q ->
    p_inside c p = true -> p_inside c q = true ->
    p_next p = false /\ p_first_run q = false /\
    notifications (p_events q) =
      [Notifier_show NOTIFICATION_TITLE
         "It's time to take a break and stretch!" 10].
Proof.
  intros i p q Hp Hq Hip Hiq.
  assert (Pp : pass_of c p).
  { eapply passes_are_iterations, list_elem_of_lookup_2, Hp. }
  assert (Pq : pass_of c q).
  { eapply passes_are_iterations, list_elem_of_lookup_2, Hq. }
  destruct (passes_chain _ _ _ _ _ _ _ Hp Hq) as [Hf _].
  destruct (pass_inside c p Pp Hip) as [Hn _].
  destruct (pass_inside c q Pq Hiq) as [_ He].
  rewrite Hf, Hn in *. split; [reflexivity|]. split; [reflexivity|].
  rewrite He. reflexivity.
Qed.

Lemma reminder_while_inside_witness :
  p_next scenario_pass_0 = false /\ p_first_run scenario_pass_1 = false /\
  notifications (p_events scenario_pass_1) =
    [Notifier_show NOTIFICATION_TITLE
       "It's time to take a break and stretch!" 10].
Proof.
  apply (reminder_while_inside scenario_configuration 2 true scenario_entry
           0 scenario_pass_0 scenario_pass_1);
    vm_compute; reflexivity.
Defined.

Lemma window_check_spec (c : Configuration) (w : World) :
  valid_time (work_start c) -> valid_time (work_end c) ->
  valid_time (dt_time (next_reading w)) ->
  window_check c w = true <->
  time_micros (work_start c) <= time_micros (dt_time (next_reading w))
    <= time_micros (work_end c).
Proof.
  intros Hs He Hn. unfold window_check, within_work_hours, next_reading.
  simpl. rewrite andb_true_iff.
  rewrite (time_le_micros _ _ Hs Hn), (time_le_micros _ _ Hn He).
  reflexivity.
Qed.

Lemma notifications_outside_passes (c : Configuration) (l : list Pass) :
  (forall p : Pass, p ∈ l -> pass_of c p /\ p_inside c p = false) ->
  notifications (concat (map p_events l)) = [].
Proof.
  induction l as [|p l IH]; intros HE; [reflexivity|].
  simpl. unfold notifications in *. rewrite List.filter_app.
  rewrite IH by (intros q Hq; apply HE; right; exact Hq).
  destruct (HE p (list_elem_of_here _ _)) as [Pp Hi].
  destruct (pass_outside c p Pp Hi) as [_ ->]. reflexivity.
Qed.

(** X7. A window whose end is before its start, as for a night shift
    from 22:00 to 06:00, is never entered: whatever the clock reads, the
    loop shows no notification at all, and leaves first_run true after
    every pass. *)
Theorem night_window_never_notifies (c : Configuration) (n : nat)
  (first_run : bool) (w : World) :
  valid_time (work_start c) -> valid_time (work_end c) ->
  valid_clock w ->
  time_micros (work_end c) < time_micros (work_start c) ->
  exists (first_run' : bool) (w' : World),
    loop c n first_run w = Ok (first_run', w') /\
    notifications (new_output w w') = [] /\
    (forall p : Pass, p ∈ passes c n first_run w ->
       p_inside c p = false /\ p_next p = true).
Proof.
  intros Hs He Hc Hrev.
  destruct (loop_passes c n first_run w) as (fr' & w' & Hl & _ & _ & Ho).
  exists fr', w'. split; [exact Hl|].
  assert (Out : forall w0 : World, clock w0 = clock w ->
                window_check c w0 = false).
  { intros w0 Ec. apply not_true_is_false. intros T.
    apply (window_check_spec c w0 Hs He) in T; [lia|].
    unfold next_reading. rewrite Ec. apply Hc. }
  assert (Clk : forall (k : nat) (fr : bool) (w0 : World) (p : Pass),
            clock w0 = clock w -> p ∈ passes c k fr w0 ->
            clock (p_before p) = clock w).
  { induction k as [|k IH]; intros fr w0 p Ec Hp.
    - simpl in Hp. inversion Hp.
    - rewrite passes_unfold, (Out w0 Ec) in Hp.
      apply elem_of_cons in Hp as [->|Hp]; [exact Ec|].
      exact (IH _ (advance 3 (outside_events c w0) w0) _ Ec Hp). }
  assert (Each : forall p : Pass, p ∈ passes c n first_run w ->
                 pass_of c p /\ p_inside c p = false).
  { intros p Hp. split; [exact (passes_are_iterations _ _ _ _ _ Hp)|].
    exact (Out _ (Clk _ _ _ _ eq_refl Hp)). }
  split.
  - unfold new_output. rewrite Ho, drop_app_length.
    exact (notifications_outside_passes c _ Each).
  - intros p Hp. destruct (Each p Hp) as [Pp Hi]. split; [exact Hi|].
    exact (proj1 (pass_outside c p Pp Hi)).
Qed.

Lemma night_window_never_notifies_witness :
  exists (first_run' : bool) (w' : World),
    loop night_shift 4 true (fresh_world ∅ noon_clock)
      = Ok (first_run', w') /\
    notifications (new_output (fresh_world ∅ noon_clock) w') = [] /\
    (forall p : Pass,
       p ∈ passes night_shift 4 true (fresh_world ∅ noon_clock) ->
       p_inside night_shift p = false /\ p_next p = true).
Proof.
  apply (night_window_never_notifies night_shift 4 true
           (fresh_world ∅ noon_clock)).
  - unfold valid_time; simpl; lia.
  - unfold valid_time; simpl; lia.
  - intros i. unfold valid_time; simpl. lia.
  - unfold time_micros; simpl; lia.
Defined.

(** X8. The loop wakes into the window: when the pass after one outside
    the window reads the clock at the start of work exactly, as it does
    when the sleep lasted what was asked, and the start is not after the
    end, that pass is inside the window and shows the greeting. *)
Theorem wake_at_start_greets (c : Configuration) (n : nat)
  (first_run : bool) (w : World) (i : nat) (p q : Pass) :
  valid_time (work_start c) -> valid_time (work_end c) ->
  time_micros (work_start c) <= time_micros (work_end c) ->
  passes c n first_run w !! i = Some p ->
  passes c n first_run w !! S i = Some q ->
  p_inside c p = false ->
  dt_time (next_reading (p_before q)) = work_start c ->
  p_inside c q = true /\
  notifications (p_events q) =
    [Notifier_show NOTIFICATION_TITLE "Starting work." 10].
Proof.
  intros Hs He Hle Hp Hq Ho Hwake.
  assert (Pp : pass_of c p).
  { eapply passes_are_iterations, list_elem_of_lookup_2, Hp. }
  assert (Pq : pass_of c q).
  { eapply passes_are_iterations, list_elem_of_lookup_2, Hq. }
  assert (Hi : p_inside c q = true).
  { unfold p_inside. apply (window_check_spec c (p_before q) Hs He).
    - rewrite Hwake. exact Hs.
    - rewrite Hwake. lia. }
  split; [exact Hi|].
  destruct (passes_chain _ _ _ _ _ _ _ Hp Hq) as [Hf _].
  destruct (pass_outside c p Pp Ho) as [Hn _].
  destruct (pass_inside c q Pq Hi) as [_ He'].
  rewrite He', Hf, Hn. reflexivity.
Qed.

Lemma wake_at_start_greets_witness :
  p_inside default_configuration wake_pass_1 = true /\
  notifications (p_events wake_pass_1) =
    [Notifier_show NOTIFICATION_TITLE "Starting work." 10].
Proof.
  apply (wake_at_start_greets default_configuration 2 true wake_world
           0 wake_pass_0 wake_pass_1).
  - unfold valid_time; simpl; lia.
  - unfold valid_time; simpl; lia.
  - unfold time_micros; simpl; lia.
  - vm_compute. reflexivity.
  - vm_compute. reflexivity.
  - vm_compute. reflexivity.
  - vm_compute. reflexivity.
Defined.

(** ** [parse_time] *)

Lemma time_eqb_eq (a b : time) : time_eqb a b = true -> a = b.
Proof.
  unfold time_eqb. rewrite !andb_true_iff, !Z.eqb_eq.
  destruct a, b; simpl. intros [[[-> ->] ->] ->]. reflexivity.
Qed.

Lemma parses_back_table :
  forallb (fun h => forallb (parses_back h) (seqZ 0 60)) (seqZ 0 24) = true.
Proof. vm_compute. reflexivity. Qed.

(** X9. [parse_time] accepts every time of day written as HH:MM, and
    also without the leading zero of an hour or a minute below ten
    ("9:05", "09:5", "9:5"); it returns that hour and minute with zero
    seconds and microseconds, and leaves the world as it is. *)
Theorem parse_time_accepts (h m : Z) (s : string) (w : World) :
  0 <= h < 24 -> 0 <= m < 60 ->
  s = HH_MM h m \/ s ∈ written_times h m ->
  parse_time s w = Ok (mk_time h m 0 0, w).
Proof.
  intros Hh Hm Hs.
  assert (Hin : s ∈ written_times h m).
  { destruct Hs as [->|Hs]; [|exact Hs].
    unfold written_times, written, HH_MM.
    destruct (h <? 10), (m <? 10); simpl; repeat constructor. }
  pose proof parses_back_table as T.
  rewrite forallb_forall in T.
  assert (Th : forallb (parses_back h) (seqZ 0 60) = true).
  { apply T, list_elem_of_In, elem_of_seqZ. lia. }
  rewrite forallb_forall in Th.
  assert (Tm : parses_back h m = true).
  { apply Th, list_elem_of_In, elem_of_seqZ. lia. }
  unfold parses_back in Tm. rewrite forallb_forall in Tm.
  specialize (Tm s (proj1 (list_elem_of_In _ _) Hin)).
  rewrite parse_time_run.
  destruct (strptime_HM s) as [t|]; [|discriminate].
  apply time_eqb_eq in Tm as ->. reflexivity.
Qed.

Lemma parse_time_accepts_witness :
  parse_time "9:05" scenario_world = Ok (mk_time 9 5 0 0, scenario_world).
Proof.
  apply (parse_time_accepts 9 5 "9:05" scenario_world); try lia.
  right. vm_compute. repeat constructor.
Defined.

Lemma length_list_ascii (s : string) :
  length (list_ascii_of_string s) = String.length s.
Proof. induction s as [|c s IH]; simpl; congruence. Qed.

Lemma re_H_length (cs r : list ascii) (h : Z) :
  (h, r) ∈ re_H cs ->
  exists pre : list ascii,
    cs = pre ++ r /\ (1 <= length pre <= 2)%nat.
Proof.
  unfold re_H. rewrite !elem_of_app. intros [H|[H|H]].
  - destruct cs as [|c1 [|c2 r0]]; try (by inversion H).
    destruct (Ascii.eqb c1 "2" && in_range "0" "3" c2)%bool;
      [|by inversion H].
    apply list_elem_of_singleton in H. inversion H; subst.
    exists [c1; c2]. simpl. split; [reflexivity | lia].
  - destruct cs as [|c1 [|c2 r0]]; try (by inversion H).
    destruct (in_range "0" "1" c1 && is_digit c2)%bool; [|by inversion H].
    apply list_elem_of_singleton in H. inversion H; subst.
    exists [c1; c2]. simpl. split; [reflexivity | lia].
  - destruct cs as [|c1 r0]; [by inversion H|].
    destruct (is_digit c1); [|by inversion H].
    apply list_elem_of_singleton in H. inversion H; subst.
    exists [c1]. simpl. split; [reflexivity | lia].
Qed.

Lemma re_M_length (cs r : list ascii) (m : Z) :
  (m, r) ∈ re_M cs ->
  exists pre : list ascii,
    cs = pre ++ r /\ (1 <= length pre <= 2)%nat.
Proof.
  unfold re_M. rewrite !elem_of_app. intros [H|H].
  - destruct cs as [|c1 [|c2 r0]]; try (by inversion H).
    destruct (in_range "0" "5" c1 && is_digit c2)%bool; [|by inversion H].
    apply list_elem_of_singleton in H. inversion H; subst.
    exists [c1; c2]. simpl. split; [reflexivity | lia].
  - destruct cs as [|c1 r0]; [by inversion H|].
    destruct (is_digit c1); [|by inversion H].
    apply list_elem_of_singleton in H. inversion H; subst.
    exists [c1]. simpl. split; [reflexivity | lia].
Qed.

Lemma re_colon_length (cs r : list ascii) :
  r ∈ re_colon cs -> cs = ":"%char :: r.
Proof.
  unfold re_colon. destruct cs as [|c r0]; [by inversion 1|].
  destruct (Ascii.eqb_spec c ":"); [|by inversion 1].
  intros H. apply list_elem_of_singleton in H. subst. reflexivity.
Qed.

(** X10. An ASCII string [parse_time] accepts has between three and
    five characters, a colon among them, and nothing after the minutes: a
    time with seconds such as "09:00:00" raises ValueError, and so does
    the empty string.  What it returns has zero seconds and
    microseconds. *)
Theorem parse_time_shape (s : string) (w w' : World) (t : time) :
  is_ascii s = true ->
  parse_time s w = Ok (t, w') ->
  (3 <= String.length s <= 5)%nat /\
  In ":"%char (list_ascii_of_string s) /\
  second t = 0 /\ microsecond t = 0 /\ w' = w.
Proof.
  intros _ H. apply parse_time_pure in H as [-> Hs].
  destruct (strptime_HM_valid s t Hs) as (_ & S0 & U0).
  unfold strptime_HM in Hs.
  destruct (format_regex_match (list_ascii_of_string s))
    as [[[h m] [|c r]]|] eqn:E; try discriminate.
  unfold format_regex_match in E. apply head_Some_elem_of in E.
  apply list_elem_of_bind in E as ([h' r1] & E & Hh).
  apply list_elem_of_bind in E as (r2 & E & Hc).
  apply list_elem_of_bind in E as ([m' r3] & E & Hm).
  apply list_elem_of_singleton in E. inversion E; subst.
  apply re_H_length in Hh as (preH & EH & LH).
  apply re_M_length in Hm as (preM & EM & LM).
  apply re_colon_length in Hc. subst r1 r2.
  rewrite <- length_list_ascii, EH.
  rewrite length_app; simpl. rewrite length_app; simpl.
  split; [lia|]. split; [apply in_elt | auto].
Qed.

Lemma parse_time_shape_witness :
  (3 <= String.length "09:00" <= 5)%nat /\
  In ":"%char (list_ascii_of_string "09:00") /\
  second nine = 0 /\ microsecond nine = 0 /\ scenario_world = scenario_world.
Proof.
  apply (parse_time_shape "09:00" scenario_world scenario_world nine).
  - reflexivity.
  - vm_compute. reflexivity.
Defined.

Example parse_time_rejects_seconds :
  parse_time "09:00:00" scenario_world = Raise ValueError /\
  parse_time "" scenario_world = Raise ValueError /\
  parse_time "24:00" scenario_world = Raise ValueError /\
  parse_time "12:60" scenario_world = Raise ValueError.
Proof. vm_compute. auto. Qed.

(** ** The window a configuration file can describe *)

Lemma resolve_times (w w' : World) (c : Configuration) :
  resolve w = Ok (c, w') ->
  exists s e : string,
    strptime_HM s = Some (work_start c) /\
    strptime_HM e = Some (work_end c).
Proof.
  intros Hr.
  assert (Hp : answer get_config_path w = Some
                 (if bool_decide (is_Some (files w !! USER_CONFIG_PATH w))
                  then USER_CONFIG_PATH w else SYSTEM_CONFIG_PATH)).
  { unfold answer. rewrite get_config_path_run. reflexivity. }
  rewrite (resolve_run w _ Hp) in Hr.
  destruct (load_config _ w) as [[config w1]|e]; [|discriminate].
  destruct (strptime_HM (cfg_start config)) as [s|] eqn:Es; [|discriminate].
  destruct (strptime_HM (cfg_end config)) as [e|] eqn:Ee; [|discriminate].
  inversion Hr; subst. simpl. eauto.
Qed.

(** X11. The end of the window is the first instant of its minute: a
    resolved work end has zero seconds and microseconds, so a clock
    reading later in the minute of the end is already outside the window.
    In particular no configuration file makes the window hold the last
    minute of the day after 23:59:00. *)
Theorem window_closes_with_end_minute (w w' w2 : World) (c : Configuration) :
  resolve w = Ok (c, w') ->
  valid_time (dt_time (next_reading w2)) ->
  let now := dt_time (next_reading w2) in
  second (work_end c) = 0 /\ microsecond (work_end c) = 0 /\
  (hour now = hour (work_end c) -> minute now = minute (work_end c) ->
   0 < second now \/ 0 < microsecond now ->
   window_check c w2 = false) /\
  (hour now = 23 -> minute now = 59 ->
   0 < second now \/ 0 < microsecond now ->
   window_check c w2 = false).
Proof.
  intros Hr Hn now.
  destruct (resolve_times w w' c Hr) as (s & e & Hs & He).
  destruct (strptime_HM_valid _ _ Hs) as (Vs & _ & _).
  destruct (strptime_HM_valid _ _ He) as (Ve & S0 & U0).
  split; [exact S0|]. split; [exact U0|].
  assert (Late : time_micros (work_end c) < time_micros now ->
                 window_check c w2 = false).
  { intros L. apply not_true_is_false. intros T.
    apply (window_check_spec c w2 Vs Ve Hn) in T. fold now in T. lia. }
  destruct Hn as (Hh & Hm & Hsec & Hus).
  destruct Ve as (Eh & Em & _ & _). fold now in Hh, Hm, Hsec, Hus.
  split; intros H1 H2 H3; apply Late; unfold time_micros;
    rewrite S0, U0; lia.
Qed.

Lemma window_closes_with_end_minute_witness :
  let now := dt_time (next_reading (fresh_world ∅ late_clock)) in
  second (work_end scenario_configuration) = 0 /\
  microsecond (work_end scenario_configuration) = 0 /\
  (hour now = hour (work_end scenario_configuration) ->
   minute now = minute (work_end scenario_configuration) ->
   0 < second now \/ 0 < microsecond now ->
   window_check scenario_configuration (fresh_world ∅ late_clock) = false) /\
  (hour now = 23 -> minute now = 59 ->
   0 < second now \/ 0 < microsecond now ->
   window_check scenario_configuration (fresh_world ∅ late_clock) = false).
Proof.
  apply (window_closes_with_end_minute scenario_world scenario_world
           (fresh_world ∅ late_clock) scenario_configuration).
  - vm_compute. reflexivity.
  - unfold valid_time; simpl; lia.
Defined.

(** With the window 00:00-23:59 of the scenario, a reading at 23:59:30
    is outside, and the pass sleeps until midnight. *)
Example last_minute_is_outside :
  map (fun p => (p_inside scenario_configuration p,
                 effects (p_events p)))
      (passes scenario_configuration 1 false (fresh_world ∅ late_clock)) =
    [(false, [Sleep (30000000 # 1000000)])].
Proof. vm_compute. reflexivity. Qed.

(** ** Which files matter *)

Lemma load_config_local (path : string) (w1 w2 : World) :
  files w1 !! path = files w2 !! path ->
  outcome (load_config path) w1 = outcome (load_config path) w2.
Proof.
  intros E. unfold outcome.
  destruct (files w1 !! path) as [[| |doc]|] eqn:E1; symmetry in E.
  - rewrite (load_config_unreadable w1 path E1),
      (load_config_unreadable w2 path E). reflexivity.
  - rewrite (load_config_malformed w1 path E1),
      (load_config_malformed w2 path E). reflexivity.
  - rewrite (load_config_ini w1 path doc E1), (load_config_ini w2 path doc E).
    destruct (interval_value doc) as [v|]; [destruct (py_int v)|];
      reflexivity.
  - rewrite (load_config_missing w1 path E1),
      (load_config_missing w2 path E). reflexivity.
Qed.

Lemma outcome_resolve (w : World) (path : string) :
  answer get_config_path w = Some path ->
  outcome resolve w =
    match outcome (load_config path) w with
    | Ok config =>
        match strptime_HM (cfg_start config) with
        | Some s =>
            match strptime_HM (cfg_end config) with
            | Some e => Ok (mk_configuration path (cfg_interval config) s e)
            | None => Raise ValueError
            end
        | None => Raise ValueError
        end
    | Raise e => Raise e
    end.
Proof.
  intros Hp. unfold outcome. rewrite (resolve_run w path Hp).
  destruct (load_config path w) as [[config w1]|e]; [|reflexivity].
  destruct (strptime_HM (cfg_start config)); [|reflexivity].
  destruct (strptime_HM (cfg_end config)); reflexivity.
Qed.

(** X12. [resolve] looks at two files at most: the user's, and the
    system-wide one only when the user's does not exist.  In two worlds
    with the same environment that agree on those, it returns the same
    configuration or raises the same error; so a user file that exists
    shadows the system-wide file entirely, also when the user file is
    malformed. *)
Theorem resolve_reads_two_files (w1 w2 : World) :
  same_candidates w1 w2 ->
  outcome resolve w1 = outcome resolve w2.
Proof.
  intros (Hx & Hh & Hu & Hsys).
  assert (Eu : USER_CONFIG_PATH w1 = USER_CONFIG_PATH w2).
  { unfold USER_CONFIG_PATH. rewrite Hx, Hh. reflexivity. }
  destruct (files w1 !! USER_CONFIG_PATH w1) as [f|] eqn:E1.
  - assert (P1 : answer get_config_path w1 = Some (USER_CONFIG_PATH w1)).
    { unfold answer. rewrite get_config_path_run, E1.
      rewrite bool_decide_eq_true_2 by eauto. reflexivity. }
    assert (P2 : answer get_config_path w2 = Some (USER_CONFIG_PATH w1)).
    { unfold answer. rewrite get_config_path_run, <- Hu, <- Eu.
      rewrite bool_decide_eq_true_2 by eauto. reflexivity. }
    rewrite (outcome_resolve w1 _ P1), (outcome_resolve w2 _ P2).
    rewrite (load_config_local (USER_CONFIG_PATH w1) w1 w2);
      [reflexivity|]. rewrite E1, Eu. exact Hu.
  - assert (N : ~ is_Some (@None file)) by (intros [? ?]; discriminate).
    assert (P1 : answer get_config_path w1 = Some SYSTEM_CONFIG_PATH).
    { unfold answer. rewrite get_config_path_run, E1.
      rewrite bool_decide_eq_false_2 by exact N. reflexivity. }
    assert (P2 : answer get_config_path w2 = Some SYSTEM_CONFIG_PATH).
    { unfold answer. rewrite get_config_path_run, <- Hu.
      rewrite bool_decide_eq_false_2 by exact N. reflexivity. }
    rewrite (outcome_resolve w1 _ P1), (outcome_resolve w2 _ P2).
    rewrite (load_config_local SYSTEM_CONFIG_PATH w1 w2 (Hsys eq_refl)).
    reflexivity.
Qed.

Lemma resolve_reads_two_files_witness :
  outcome resolve shadowed_world = outcome resolve shadowed_world'.
Proof.
  apply (resolve_reads_two_files shadowed_world shadowed_world').
  unfold same_candidates. repeat split.
  vm_compute. discriminate.
Defined.

Example malformed_user_file_shadows :
  outcome resolve shadowed_world = Raise ParsingError.
Proof. vm_compute. reflexivity. Qed.

(** ** The user's path *)

(** X13. When XDG_CONFIG_HOME is set, the user's path is built from it
    and the home directory plays no part, also when the variable is set
    to the empty string: the path is then the bare relative name
    break-reminder.conf.  A directory written with a trailing slash gets
    no second one. *)
Theorem xdg_config_home_decides (w : World) (d : string) :
  xdg_config_home w = Some d ->
  (forall w2 : World,
     xdg_config_home w2 = Some d ->
     USER_CONFIG_PATH w2 = USER_CONFIG_PATH w) /\
  (d = "" -> USER_CONFIG_PATH w = "break-reminder.conf") /\
  (ends_with_slash d = true ->
   USER_CONFIG_PATH w = d +:+ "break-reminder.conf") /\
  (d <> "" -> ends_with_slash d = false ->
   USER_CONFIG_PATH w = d +:+ "/break-reminder.conf").
Proof.
  intros Hd. unfold USER_CONFIG_PATH. rewrite Hd. simpl.
  split; [|split; [|split]].
  - intros w2 H2. rewrite H2. reflexivity.
  - intros ->. reflexivity.
  - intros He. unfold os_path_join. simpl. rewrite He, orb_true_r.
    reflexivity.
  - intros Hne He.
    exact (os_path_join_directory d "break-reminder.conf" eq_refl Hne He).
Qed.

Lemma xdg_config_home_decides_witness :
  (forall w2 : World,
     xdg_config_home w2 = Some "/srv/conf/" ->
     USER_CONFIG_PATH w2 = USER_CONFIG_PATH xdg_world) /\
  ("/srv/conf/" = "" -> USER_CONFIG_PATH xdg_world = "break-reminder.conf") /\
  (ends_with_slash "/srv/conf/" = true ->
   USER_CONFIG_PATH xdg_world = "/srv/conf/" +:+ "break-reminder.conf") /\
  ("/srv/conf/" <> "" -> ends_with_slash "/srv/conf/" = false ->
   USER_CONFIG_PATH xdg_world = "/srv/conf/" +:+ "/break-reminder.conf").
Proof.
  apply (xdg_config_home_decides xdg_world "/srv/conf/"). reflexivity.
Defined.
